(** * Jarvis tools: Gmail and GitHub wrappers

    A shallow embedding of the tool functions of the package
    [app.jarvis.tools] (email_utils.py, list_emails.py, read_email.py,
    send_email.py, delete_email.py, github_utils.py, github_tools.py and
    the package's __init__.py), and the properties their specification
    states about them.

    The tools are glue around two vendor APIs.  Everything that lives
    outside the repository (the file system, Google's auth and discovery
    libraries, the Gmail service object, the [requests] module, the MIME
    and base64 decoders) is gathered in one record, [World], which plays
    the role of the mock a test would install.  A tool is a computation in
    a small state-and-exception monad whose state is the chronological
    trace of what the tool did to the outside. *)

From Stdlib Require Import Ascii.
From stdpp Require Import base strings list gmap pretty.

Set Warnings "-register-all".

(** ** Python values *)

(** The JSON fragment of Python's object universe: what [json.loads] and
    [response.json()] produce and what the tools return.  A [dict] is a
    finite map keyed by strings.  Numbers are integers: neither API puts a
    float in a field these tools read. *)
Inductive value :=
| VNone
| VBool (b : bool)
| VInt (n : Z)
| VStr (s : string)
| VList (l : list value)
| VDict (d : gmap string value).

(** A dict display [{k1: v1, ...}].  The displays of the source have
    pairwise distinct keys. *)
Definition dict (l : list (string * value)) : value := VDict (list_to_map l).

(** Lookup in a returned dictionary; [None] when the key is absent or the
    value is no dict. *)
Definition field (v : value) (k : string) : option value :=
  match v with
  | VDict d => d !! k
  | _ => None
  end.

(** The key set of a dictionary. *)
Definition keys (v : value) : gset string :=
  match v with
  | VDict d => dom d
  | _ => ∅
  end.

(** ** Exceptions *)

(** [except Exception] catches the instances of [Exception]; an exception
    that derives from [BaseException] only ([KeyboardInterrupt],
    [SystemExit]) passes through it.  An [Exception] is carried with the
    text [str(e)] gives, the only thing the handlers read. *)
Inductive exn :=
| Exception (str : string)
| KeyboardInterrupt
| SystemExit.

Inductive outcome (A : Type) :=
| Ok (a : A)
| Raise (e : exn).
Arguments Ok {A} a.
Arguments Raise {A} e.

Definition obind {A B} (o : outcome A) (k : A → outcome B) : outcome B :=
  match o with
  | Ok a => k a
  | Raise e => Raise e
  end.

(** [try: body / except Exception as e: handler(str(e))]. *)
Definition otry {A} (body : outcome A) (handler : string → outcome A) : outcome A :=
  match body with
  | Raise (Exception s) => handler s
  | r => r
  end.

(** ** Python primitives on values *)

Definition type_name (v : value) : string :=
  match v with
  | VNone => "NoneType"
  | VBool _ => "bool"
  | VInt _ => "int"
  | VStr _ => "str"
  | VList _ => "list"
  | VDict _ => "dict"
  end.

(** The texts are those CPython 3.11 prints; no property below reads
    them. *)
Definition AttributeError (v : value) (attr : string) : exn :=
  Exception ("'" +:+ type_name v +:+ "' object has no attribute '" +:+ attr +:+ "'").

Definition KeyError (k : string) : exn := Exception ("'" +:+ k +:+ "'").

Definition TypeError_subscript (v : value) : exn :=
  match v with
  | VStr _ => Exception "string indices must be integers, not 'str'"
  | VList _ => Exception "list indices must be integers or slices, not str"
  | _ => Exception ("'" +:+ type_name v +:+ "' object is not subscriptable")
  end.

Definition TypeError_iter (v : value) : exn :=
  Exception ("'" +:+ type_name v +:+ "' object is not iterable").

Definition TypeError_contains (v : value) : exn :=
  Exception ("argument of type '" +:+ type_name v +:+ "' is not iterable").

(** [bool(v)], as [if v:] and [not v] compute it. *)
Definition truthy (v : value) : bool :=
  match v with
  | VNone => false
  | VBool b => b
  | VInt n => negb (n =? 0)%Z
  | VStr s => negb (String.eqb s "")
  | VList l => match l with [] => false | _ => true end
  | VDict d => negb (size d =? 0)%nat
  end.

(** [v.get(k, dflt)]. *)
Definition py_get (v : value) (k : string) (dflt : value) : outcome value :=
  match v with
  | VDict d => Ok (default dflt (d !! k))
  | _ => Raise (AttributeError v "get")
  end.

(** [v[k]] for a string [k]. *)
Definition py_getitem (v : value) (k : string) : outcome value :=
  match v with
  | VDict d =>
      match d !! k with
      | Some x => Ok x
      | None => Raise (KeyError k)
      end
  | _ => Raise (TypeError_subscript v)
  end.

(** [sub in s] on strings. *)
Fixpoint substring_of (sub s : string) : bool :=
  String.prefix sub s ||
  match s with
  | EmptyString => false
  | String _ s' => substring_of sub s'
  end.

(** [v == k] for a string [k]. *)
Definition eq_str (v : value) (k : string) : bool :=
  match v with
  | VStr s => String.eqb s k
  | _ => false
  end.

(** [k in v] for a string [k]: a key of a dict, an element of a list, a
    substring of a string. *)
Definition py_contains (k : string) (v : value) : outcome bool :=
  match v with
  | VDict d => Ok (bool_decide (is_Some (d !! k)))
  | VList l => Ok (existsb (λ x, eq_str x k) l)
  | VStr s => Ok (substring_of k s)
  | _ => Raise (TypeError_contains v)
  end.

(** The elements a [for] loop visits.  A dict yields its keys and a
    string its characters (here: its bytes).  The order CPython visits the
    keys in (insertion order) is not kept by the finite map, and no loop
    of the tools can tell: each loop body fails on the first string
    element without reading it. *)
Definition py_iter (v : value) : outcome (list value) :=
  match v with
  | VList l => Ok l
  | VDict d => Ok (VStr <$> (map_to_list d).*1)
  | VStr s => Ok ((λ c, VStr (String c "")) <$> String.list_ascii_of_string s)
  | _ => Raise (TypeError_iter v)
  end.

(** [str.lower()] on the ASCII letters. *)
Definition lower_ascii (c : ascii) : ascii :=
  let n := nat_of_ascii c in
  if (65 <=? n)%nat && (n <=? 90)%nat then ascii_of_nat (n + 32) else c.

Fixpoint lower (s : string) : string :=
  match s with
  | EmptyString => EmptyString
  | String c s' => String (lower_ascii c) (lower s')
  end.

(** [v.lower()]. *)
Definition py_lower (v : value) : outcome string :=
  match v with
  | VStr s => Ok (lower s)
  | _ => Raise (AttributeError v "lower")
  end.

(** [str(v)] as an f-string field prints it.  Containers print through
    [repr], which is left to the world (see [py_repr] below). *)
Definition py_str (repr : value → string) (v : value) : string :=
  match v with
  | VNone => "None"
  | VBool true => "True"
  | VBool false => "False"
  | VInt n => pretty n
  | VStr s => s
  | _ => repr v
  end.

(** ** Base64 (RFC 4648), as [base64.b64encode] and
    [base64.urlsafe_b64encode] compute it

    A Python [str] is represented by the bytes of its UTF-8 encoding, so
    [s.encode()] and the [.decode()] of an ASCII result are the identity. *)

Definition b64_alphabet : string :=
  "ABCDEFGHIJKLMNOPQRSTUVWXYZabcdefghijklmnopqrstuvwxyz0123456789+/".

Definition urlsafe_alphabet : string :=
  "ABCDEFGHIJKLMNOPQRSTUVWXYZabcdefghijklmnopqrstuvwxyz0123456789-_".

Definition sextet (alphabet : string) (n : N) : ascii :=
  default "="%char (String.get (N.to_nat n) alphabet).

Definition pad : ascii := "="%char.

Fixpoint encode_bytes (alphabet : string) (l : list N) : string :=
  match l with
  | [] => ""
  | [a] =>
      String (sextet alphabet (N.shiftr a 2))
     (String (sextet alphabet (N.shiftl (N.land a 3) 4))
     (String pad (String pad "")))
  | [a; b] =>
      String (sextet alphabet (N.shiftr a 2))
     (String (sextet alphabet (N.lor (N.shiftl (N.land a 3) 4) (N.shiftr b 4)))
     (String (sextet alphabet (N.shiftl (N.land b 15) 2))
     (String pad "")))
  | a :: b :: c :: rest =>
      String (sextet alphabet (N.shiftr a 2))
     (String (sextet alphabet (N.lor (N.shiftl (N.land a 3) 4) (N.shiftr b 4)))
     (String (sextet alphabet (N.lor (N.shiftl (N.land b 15) 2) (N.shiftr c 6)))
     (String (sextet alphabet (N.land c 63))
             (encode_bytes alphabet rest))))
  end.

Definition bytes_of (s : string) : list N :=
  N_of_ascii <$> String.list_ascii_of_string s.

(** [base64.b64encode(s.encode()).decode()]. *)
Definition b64encode (s : string) : string := encode_bytes b64_alphabet (bytes_of s).

(** [base64.urlsafe_b64encode(b).decode()]. *)
Definition urlsafe_b64encode (b : string) : string :=
  encode_bytes urlsafe_alphabet (bytes_of b).

(** ** The world outside the repository *)

(** [google.oauth2.credentials.Credentials], as far as
    [get_gmail_service] reads it. *)
Record creds := {
  valid : bool;
  expired : bool;
  refresh_token : value;
}.

(** The object [build("gmail", "v1", credentials=creds)] returns.  It is
    an ordinary object, hence truthy. *)
Inductive service := Resource (c : creds).

(** A [requests.Response]. *)
Record response := {
  status_code : Z;
  text : string;
  json : outcome value;
}.

(** The Gmail API requests of the tools; each stands for building the
    request on [service.users()] and calling [.execute()] on it. *)
Inductive gmail_call :=
| messages_list (userId : string) (q : string) (maxResults : Z)
| messages_get (userId : string) (id : value) (format : string)
| getProfile (userId : string)
| messages_send (userId : string) (body : value)
| messages_trash (userId : string) (id : string)
| messages_delete (userId : string) (id : string).

(** The calls into the [requests] module. *)
Inductive http_call :=
| requests_get (url : string) (headers : value)
| requests_post (url : string) (headers : value) (body : value)
| requests_put (url : string) (headers : value) (body : value).

(** What a tool does to the outside, in the order it does it. *)
Inductive event :=
| Gmail (c : gmail_call)         (* a Gmail API request *)
| Http (c : http_call)           (* a GitHub REST request *)
| TokenRefresh                   (* creds.refresh(Request()) *)
| OAuthFlow                      (* flow.run_local_server(port=0) *)
| TokenWrite.                    (* TOKEN_PATH.write_text(creds.to_json()) *)

Definition trace := list event.

(** The API requests of a trace: the HTTP/API calls the tool itself
    issues, as opposed to what the credential loader does. *)
Definition is_request (ev : event) : bool :=
  match ev with
  | Gmail _ | Http _ => true
  | _ => false
  end.

Definition requests_of (t : trace) : trace := List.filter is_request t.

(** Everything in a trace that goes to the network: the API requests and,
    besides them, what the credential loader sends to Google, that is the
    token refresh and the consent flow (counted once, although it holds a
    browser round trip and the request that exchanges the code for a
    token).  Writing the token file goes to the disk only. *)
Definition is_exchange (ev : event) : bool :=
  match ev with
  | Gmail _ | Http _ | TokenRefresh | OAuthFlow => true
  | TokenWrite => false
  end.

Definition exchanges_of (t : trace) : trace := List.filter is_exchange t.

(** The mock.  An answer may depend on everything that happened before in
    the invocation. *)
Record World := {
  (* ~/.credentials/gmail_token.json and credentials.json *)
  gmail_token_exists : bool;
  gmail_token_load : outcome creds;         (* from_authorized_user_info(json.loads(read_text())) *)
  creds_refresh : creds → outcome creds;    (* the credentials after creds.refresh(Request()) *)
  credentials_exists : bool;
  oauth_flow : outcome creds;               (* from_client_secrets_file + run_local_server *)
  gmail_token_save : creds → outcome unit;  (* mkdir + write_text *)
  build : creds → outcome service;
  execute : service → trace → gmail_call → outcome value;
  (* ~/.credentials/github_token.json *)
  github_token_exists : bool;
  github_token_load : outcome value;        (* json.loads(TOKEN_PATH.read_text()) *)
  requests : trace → http_call → outcome response;
  (* the standard library: pure functions, which fail with an Exception
     (given by its text) or not at all *)
  urlsafe_b64decode : value → string + string;   (* base64.urlsafe_b64decode *)
  bytes_decode : string → string + string;       (* bytes.decode() *)
  mime_as_bytes : value → string → string → string → bool → string + string;
  py_repr : value → string;
}.

(** The outcome of a pure library call. *)
Definition raising {A} (r : A + string) : outcome A :=
  match r with
  | inl a => Ok a
  | inr s => Raise (Exception s)
  end.

(** ** The monad of the tools *)

Definition M (A : Type) : Type := trace → outcome A * trace.

Definition ret {A} (a : A) : M A := λ t, (Ok a, t).

Definition bind {A B} (m : M A) (k : A → M B) : M B :=
  λ t, match m t with
       | (Ok a, t') => k a t'
       | (Raise e, t') => (Raise e, t')
       end.

(** A step that touches nothing outside. *)
Definition lift {A} (o : outcome A) : M A := λ t, (o, t).

(** A step that does: the world answers from the history, and the event
    joins the trace whatever the answer. *)
Definition emit {A} (ev : event) (answer : trace → outcome A) : M A :=
  λ t, (answer t, t ++ [ev]).

(** [try: body / except Exception as e: handler(str(e))]. *)
Definition try_except {A} (body : M A) (handler : string → M A) : M A :=
  λ t, match body t with
       | (Raise (Exception s), t') => handler s t'
       | r => r
       end.

(** An invocation starts from the empty trace. *)
Definition run {A} (m : M A) : outcome A * trace := m [].

Notation "'let*' x ':=' m 'in' k" := (bind m (λ x, k))
  (at level 10, x name, m at level 100, k at level 200, only parsing).
Notation "'do*' m 'in' k" := (bind m (λ _, k))
  (at level 10, m at level 100, k at level 200, only parsing).
Notation "'let?' x ':=' o 'in' k" := (obind o (λ x, k))
  (at level 10, x name, o at level 100, k at level 200, only parsing).

(** ** email_utils.py *)

Section Tools.

Variable W : World.

Definition gmail (s : service) (c : gmail_call) : M value :=
  emit (Gmail c) (λ t, execute W s t c).

Definition http (c : http_call) : M response :=
  emit (Http c) (λ t, requests W t c).

(** The tail of [get_gmail_service] once [creds] is settled. *)
Definition save_and_build (c : creds) : M (option service) :=
  do* emit TokenWrite (λ _, gmail_token_save W c) in
  let* s := lift (build W c) in
  ret (Some s).

(** The [else] branch: no usable token, so the OAuth flow runs, unless
    credentials.json is missing. *)
Definition login : M (option service) :=
  if negb (credentials_exists W) then ret None
  else
    let* c := emit OAuthFlow (λ _, oauth_flow W) in
    save_and_build c.

Definition get_gmail_service : M (option service) :=
  let* creds := (if gmail_token_exists W
                 then let* c := lift (gmail_token_load W) in ret (Some c)
                 else ret None) in
  match creds with
  | Some c =>
      if negb (valid c) then
        if expired c && truthy (refresh_token c) then
          let* c' := emit TokenRefresh (λ _, creds_refresh W c) in
          save_and_build c'
        else login
      else
        let* s := lift (build W c) in
        ret (Some s)
  | None => login
  end.

(** [create_message]: the MIME tree and its [as_bytes()] belong to the
    [email] package. *)
Definition create_message (sender : value) (to subject message_text : string)
    (is_html : bool) : outcome value :=
  let? raw := raising (mime_as_bytes W sender to subject message_text is_html) in
  Ok (dict [("raw", VStr (urlsafe_b64encode raw))]).

(** The loop [for header in ...: headers[header['name'].lower()] =
    header['value']].  The right-hand side is evaluated first. *)
Fixpoint collect_headers (l : list value) (headers : gmap string value)
    : outcome (gmap string value) :=
  match l with
  | [] => Ok headers
  | header :: rest =>
      let? v := py_getitem header "value" in
      let? n := py_getitem header "name" in
      let? k := py_lower n in
      collect_headers rest (<[k := v]> headers)
  end.

(** [base64.urlsafe_b64decode(data).decode()]. *)
Definition decode_body (data : value) : outcome string :=
  let? b := raising (urlsafe_b64decode W data) in
  raising (bytes_decode W b).

(** The loop over [message['payload']['parts']]: the first part whose
    [mimeType] is text/plain is decoded and ends the loop; [body] is what
    the variable held before the loop. *)
Fixpoint scan_parts (parts : list value) (body : string) : outcome string :=
  match parts with
  | [] => Ok body
  | part :: rest =>
      let? ty := py_getitem part "mimeType" in
      if eq_str ty "text/plain" then
        let? b := py_getitem part "body" in
        let? data := py_getitem b "data" in
        decode_body data
      else scan_parts rest body
  end.

Definition extract_body (message : value) : outcome string :=
  let? payload := py_get message "payload" (dict []) in
  let? has_parts := py_contains "parts" payload in
  if has_parts then
    let? p := py_getitem message "payload" in
    let? parts := py_getitem p "parts" in
    let? l := py_iter parts in
    scan_parts l ""
  else
    let? payload := py_get message "payload" (dict []) in
    let? has_body := py_contains "body" payload in
    let? has_data := (if has_body then
                        let? p := py_getitem message "payload" in
                        let? b := py_getitem p "body" in
                        py_contains "data" b
                      else Ok false) in
    if has_data then
      let? p := py_getitem message "payload" in
      let? b := py_getitem p "body" in
      let? data := py_getitem b "data" in
      decode_body data
    else Ok "".

Definition format_message (message : value) : outcome value :=
  let? payload := py_get message "payload" (dict []) in
  let? hs := py_get payload "headers" (VList []) in
  let? l := py_iter hs in
  let? headers := collect_headers l ∅ in
  let? body := otry (extract_body message) (λ _, Ok "[Could not decode message body]") in
  let? id := py_get message "id" (VStr "") in
  let? threadId := py_get message "threadId" (VStr "") in
  let? snippet := py_get message "snippet" (VStr "") in
  Ok (dict [
    ("id", id);
    ("thread_id", threadId);
    ("from", default (VStr "Unknown") (headers !! "from"));
    ("to", default (VStr "Unknown") (headers !! "to"));
    ("subject", default (VStr "(No Subject)") (headers !! "subject"));
    ("date", default (VStr "Unknown") (headers !! "date"));
    ("snippet", snippet);
    ("body", VStr body)
  ]).

(** ** list_emails.py, read_email.py, send_email.py, delete_email.py *)

Definition gmail_auth_failed : string :=
  "Failed to authenticate with Gmail. Please check credentials.".

(** The loop [for msg in messages: ... emails.append(format_message(message))]. *)
Fixpoint fetch_emails (s : service) (messages : list value) (emails : list value)
    : M (list value) :=
  match messages with
  | [] => ret emails
  | msg :: rest =>
      let* id := lift (py_getitem msg "id") in
      let* message := gmail s (messages_get "me" id "full") in
      let* email := lift (format_message message) in
      fetch_emails s rest (emails ++ [email])
  end.

(** [f"label:{label}"], extended by [f" {query}"] when [query] is truthy. *)
Definition search_query (query label : string) : string :=
  let q := "label:" +:+ label in
  if negb (String.eqb query "") then q +:+ " " +:+ query else q.

Definition list_emails (max_results : Z) (query label : string) : M value :=
  try_except
    (let* service := get_gmail_service in
     match service with
     | None =>
         ret (dict [("status", VStr "error");
                    ("message", VStr gmail_auth_failed);
                    ("emails", VList [])])
     | Some service =>
         let* results :=
           gmail service (messages_list "me" (search_query query label) max_results) in
         let* messages := lift (py_get results "messages" (VList [])) in
         if negb (truthy messages) then
           ret (dict [("status", VStr "success");
                      ("message", VStr "No emails found.");
                      ("emails", VList [])])
         else
           let* l := lift (py_iter messages) in
           let* emails := fetch_emails service l [] in
           ret (dict [("status", VStr "success");
                      ("message", VStr ("Found " +:+ pretty (length emails) +:+ " emails."));
                      ("emails", VList emails)])
     end)
    (λ e,
       ret (dict [("status", VStr "error");
                  ("message", VStr ("Error listing emails: " +:+ e));
                  ("emails", VList [])])).

(** The defaults of [list_emails]'s parameters. *)
Definition list_emails_max_results : Z := 10.
Definition list_emails_query : string := "".
Definition list_emails_label : string := "INBOX".

Definition read_email (email_id : string) : M value :=
  try_except
    (let* service := get_gmail_service in
     match service with
     | None =>
         ret (dict [("status", VStr "error");
                    ("message", VStr gmail_auth_failed)])
     | Some service =>
         let* message := gmail service (messages_get "me" (VStr email_id) "full") in
         let* formatted_message := lift (format_message message) in
         ret (dict [("status", VStr "success");
                    ("message", VStr "Email retrieved successfully");
                    ("email", formatted_message)])
     end)
    (λ e,
       ret (dict [("status", VStr "error");
                  ("message", VStr ("Error reading email: " +:+ e))])).

Definition send_email (to subject body : string) (is_html : bool) : M value :=
  try_except
    (let* service := get_gmail_service in
     match service with
     | None =>
         ret (dict [("status", VStr "error");
                    ("message", VStr gmail_auth_failed)])
     | Some service =>
         let* profile := gmail service (getProfile "me") in
         let* sender := lift (py_get profile "emailAddress" VNone) in
         let* message := lift (create_message sender to subject body is_html) in
         let* sent_message := gmail service (messages_send "me" message) in
         let* message_id := lift (py_getitem sent_message "id") in
         ret (dict [("status", VStr "success");
                    ("message", VStr "Email sent successfully");
                    ("message_id", message_id)])
     end)
    (λ e,
       ret (dict [("status", VStr "error");
                  ("message", VStr ("Error sending email: " +:+ e))])).

Definition delete_email (email_id : string) (trash : bool) : M value :=
  try_except
    (let* service := get_gmail_service in
     match service with
     | None =>
         ret (dict [("status", VStr "error");
                    ("message", VStr gmail_auth_failed)])
     | Some service =>
         let* action :=
           (if trash then
              do* gmail service (messages_trash "me" email_id) in
              ret "moved to trash"
            else
              do* gmail service (messages_delete "me" email_id) in
              ret "permanently deleted") in
         ret (dict [("status", VStr "success");
                    ("message", VStr ("Email " +:+ action +:+ " successfully"))])
     end)
    (λ e,
       ret (dict [("status", VStr "error");
                  ("message", VStr ("Error deleting email: " +:+ e))])).

(** The default of [delete_email]'s [trash] parameter. *)
Definition delete_email_trash : bool := true.

(** ** github_utils.py *)

(** [get_github_auth]: the pair [(username, token)], or [(None, None)]
    when the token file is missing or any [Exception] is raised while it
    is read.  The function prints a diagnostic in both failure cases; the
    standard output is not modelled. *)
Definition get_github_auth : outcome (value * value) :=
  otry
    (if github_token_exists W then
       let? credentials := github_token_load W in
       let? username := py_get credentials "username" VNone in
       let? token := py_get credentials "token" VNone in
       Ok (username, token)
     else Ok (VNone, VNone))
    (λ _, Ok (VNone, VNone)).

(** [get_github_headers]: the headers dict, or [None]. *)
Definition get_github_headers : outcome value :=
  let? auth := get_github_auth in
  let (username, token) := auth in
  if negb (truthy username) || negb (truthy token) then Ok VNone
  else
    Ok (dict [("Accept", VStr "application/vnd.github.v3+json");
              ("Authorization", VStr ("token " +:+ py_str (py_repr W) token))]).

(** ** github_tools.py *)

Definition github_auth_failed : string :=
  "Failed to authenticate with GitHub. Please check credentials.".

(** [f"GitHub API error: {response.status_code} - {response.text}"]. *)
Definition github_api_error (r : response) : string :=
  "GitHub API error: " +:+ pretty (status_code r) +:+ " - " +:+ text r.

(** [response.status_code not in [200, 201]]. *)
Definition not_200_201 (r : response) : bool :=
  negb ((status_code r =? 200)%Z || (status_code r =? 201)%Z).

Definition format_repo (repo : value) : outcome value :=
  let? id := py_get repo "id" VNone in
  let? name := py_get repo "name" VNone in
  let? full_name := py_get repo "full_name" VNone in
  let? description := py_get repo "description" VNone in
  let? html_url := py_get repo "html_url" VNone in
  let? private := py_get repo "private" VNone in
  let? created_at := py_get repo "created_at" VNone in
  let? updated_at := py_get repo "updated_at" VNone in
  let? language := py_get repo "language" VNone in
  Ok (dict [("id", id);
            ("name", name);
            ("full_name", full_name);
            ("description", description);
            ("url", html_url);
            ("private", private);
            ("created_at", created_at);
            ("updated_at", updated_at);
            ("language", language)]).

(** The loop [for repo in repos: formatted_repos.append({...})]. *)
Fixpoint format_repos (repos : list value) (formatted_repos : list value)
    : outcome (list value) :=
  match repos with
  | [] => Ok formatted_repos
  | repo :: rest =>
      let? r := format_repo repo in
      format_repos rest (formatted_repos ++ [r])
  end.

Definition list_repositories : M value :=
  try_except
    (let* headers := lift (get_github_headers) in
     if negb (truthy headers) then
       ret (dict [("status", VStr "error");
                  ("message", VStr github_auth_failed);
                  ("repositories", VList [])])
     else
       let* response := http (requests_get "https://api.github.com/user/repos" headers) in
       if negb (status_code response =? 200)%Z then
         ret (dict [("status", VStr "error");
                    ("message", VStr (github_api_error response));
                    ("repositories", VList [])])
       else
         let* repos := lift (json response) in
         if negb (truthy repos) then
           ret (dict [("status", VStr "success");
                      ("message", VStr "No repositories found.");
                      ("repositories", VList [])])
         else
           let* l := lift (py_iter repos) in
           let* formatted_repos := lift (format_repos l []) in
           ret (dict [("status", VStr "success");
                      ("message", VStr ("Found " +:+ pretty (length formatted_repos)
                                        +:+ " repositories."));
                      ("repositories", VList formatted_repos)]))
    (λ e,
       ret (dict [("status", VStr "error");
                  ("message", VStr ("Error listing repositories: " +:+ e));
                  ("repositories", VList [])])).

Definition create_repository (name description : string) (private : bool) : M value :=
  try_except
    (let* headers := lift (get_github_headers) in
     if negb (truthy headers) then
       ret (dict [("status", VStr "error");
                  ("message", VStr github_auth_failed)])
     else
       let data := dict [("name", VStr name);
                         ("description", VStr description);
                         ("private", VBool private);
                         ("auto_init", VBool true)] in
       let* response :=
         http (requests_post "https://api.github.com/user/repos" headers data) in
       if not_200_201 response then
         ret (dict [("status", VStr "error");
                    ("message", VStr (github_api_error response))])
       else
         let* repo := lift (json response) in
         let* id := lift (py_get repo "id" VNone) in
         let* rname := lift (py_get repo "name" VNone) in
         let* full_name := lift (py_get repo "full_name" VNone) in
         let* rdescription := lift (py_get repo "description" VNone) in
         let* html_url := lift (py_get repo "html_url" VNone) in
         let* clone_url := lift (py_get repo "clone_url" VNone) in
         let* rprivate := lift (py_get repo "private" VNone) in
         ret (dict [("status", VStr "success");
                    ("message", VStr ("Repository '" +:+ name +:+ "' created successfully."));
                    ("repository", dict [("id", id);
                                         ("name", rname);
                                         ("full_name", full_name);
                                         ("description", rdescription);
                                         ("url", html_url);
                                         ("clone_url", clone_url);
                                         ("private", rprivate)])]))
    (λ e,
       ret (dict [("status", VStr "error");
                  ("message", VStr ("Error creating repository: " +:+ e))])).

(** The defaults of [create_repository]'s parameters. *)
Definition create_repository_description : string := "".
Definition create_repository_private : bool := false.

Definition format_item (item : value) : outcome value :=
  let? name := py_get item "name" VNone in
  let? path := py_get item "path" VNone in
  let? type := py_get item "type" VNone in
  let? size := py_get item "size" VNone in
  let? html_url := py_get item "html_url" VNone in
  Ok (dict [("name", name);
            ("path", path);
            ("type", type);
            ("size", size);
            ("url", html_url)]).

(** The loop [for item in contents: formatted_contents.append({...})]. *)
Fixpoint format_items (contents : list value) (formatted_contents : list value)
    : outcome (list value) :=
  match contents with
  | [] => Ok formatted_contents
  | item :: rest =>
      let? i := format_item item in
      format_items rest (formatted_contents ++ [i])
  end.

(** [f"https://api.github.com/repos/{repo_name}/contents"], extended by
    [f"/{path}"] when [path] is truthy. *)
Definition contents_url (repo_name path : string) : string :=
  let url := "https://api.github.com/repos/" +:+ repo_name +:+ "/contents" in
  if negb (String.eqb path "") then url +:+ "/" +:+ path else url.

Definition scan_repository (repo_name path : string) : M value :=
  try_except
    (let* headers := lift (get_github_headers) in
     if negb (truthy headers) then
       ret (dict [("status", VStr "error");
                  ("message", VStr github_auth_failed);
                  ("contents", VList [])])
     else
       let* response := http (requests_get (contents_url repo_name path) headers) in
       if negb (status_code response =? 200)%Z then
         ret (dict [("status", VStr "error");
                    ("message", VStr (github_api_error response));
                    ("contents", VList [])])
       else
         let* contents := lift (json response) in
         if negb (truthy contents) then
           ret (dict [("status", VStr "success");
                      ("message", VStr "No contents found.");
                      ("contents", VList [])])
         else
           let* formatted_contents :=
             lift (match contents with
                   | VList l => format_items l []
                   | _ => let? i := format_item contents in Ok [i]
                   end) in
           ret (dict [("status", VStr "success");
                      ("message", VStr ("Found " +:+ pretty (length formatted_contents)
                                        +:+ " items in repository."));
                      ("contents", VList formatted_contents)]))
    (λ e,
       ret (dict [("status", VStr "error");
                  ("message", VStr ("Error scanning repository: " +:+ e));
                  ("contents", VList [])])).

(** The default of [scan_repository]'s [path] parameter. *)
Definition scan_repository_path : string := "".

(** The [data] of the PUT: the commit message and the encoded content,
    and the [sha] when it is truthy. *)
Definition push_data (commit_message content : string) (sha : value)
    : gmap string value :=
  let data : gmap string value :=
    list_to_map [("message", VStr commit_message);
                 ("content", VStr (b64encode content))] in
  if truthy sha then <["sha" := sha]> data else data.

(** [f"https://api.github.com/repos/{repo_name}/contents/{file_path}"]. *)
Definition push_url (repo_name file_path : string) : string :=
  "https://api.github.com/repos/" +:+ repo_name +:+ "/contents/" +:+ file_path.

(** The [sha] variable after the GET: [response.json().get("sha")] when
    the status is 200, [None] otherwise. *)
Definition existing_sha (response : response) : outcome value :=
  if (status_code response =? 200)%Z then
    let? j := json response in
    py_get j "sha" VNone
  else Ok VNone.

Definition push_to_repository (repo_name file_path content commit_message : string)
    : M value :=
  try_except
    (let* headers := lift (get_github_headers) in
     if negb (truthy headers) then
       ret (dict [("status", VStr "error");
                  ("message", VStr github_auth_failed)])
     else
       let url := push_url repo_name file_path in
       let* response := http (requests_get url headers) in
       let* sha := lift (existing_sha response) in
       let data := push_data commit_message content sha in
       let* response := http (requests_put url headers (VDict data)) in
       if not_200_201 response then
         ret (dict [("status", VStr "error");
                    ("message", VStr (github_api_error response))])
       else
         let* result := lift (json response) in
         let* commit := lift (py_get result "commit" (dict [])) in
         let* csha := lift (py_get commit "sha" VNone) in
         let* commit' := lift (py_get result "commit" (dict [])) in
         let* curl := lift (py_get commit' "html_url" VNone) in
         ret (dict [("status", VStr "success");
                    ("message", VStr ("File '" +:+ file_path
                                      +:+ "' pushed to repository successfully."));
                    ("commit", dict [("sha", csha); ("url", curl)])]))
    (λ e,
       ret (dict [("status", VStr "error");
                  ("message", VStr ("Error pushing to repository: " +:+ e))])).

End Tools.

(** ** __init__.py *)

(** A statement [from .module import name, ...]. *)
Record import_from := {
  module : string;
  names : list string;
}.

(** The import statements of the package, in the order they run. *)
Definition imports : list import_from := [
  {| module := "calendar_utils"; names := ["get_current_time"] |};
  {| module := "create_event"; names := ["create_event"] |};
  {| module := "delete_event"; names := ["delete_event"] |};
  {| module := "edit_event"; names := ["edit_event"] |};
  {| module := "list_events"; names := ["list_events"] |};
  {| module := "delete_email"; names := ["delete_email"] |};
  {| module := "list_emails"; names := ["list_emails"] |};
  {| module := "read_email"; names := ["read_email"] |};
  {| module := "send_email"; names := ["send_email"] |};
  {| module := "github_tools";
     names := ["list_repositories"; "create_repository"; "scan_repository";
               "push_to_repository"] |}
].


(** The submodules that can be imported, each with the names it binds at
    top level. *)
Definition modules := gmap string (gset string).

(** The tool modules of the package whose source is at hand. *)
Definition tool_modules : modules :=
  list_to_map [
    ("delete_email", {["get_gmail_service"; "delete_email"]});
    ("list_emails", {["get_gmail_service"; "format_message"; "list_emails"]});
    ("read_email", {["get_gmail_service"; "format_message"; "read_email"]});
    ("send_email", {["get_gmail_service"; "create_message"; "send_email"]});
    ("github_tools",
       {["base64"; "json"; "Path"; "requests"; "get_github_auth"; "get_github_headers";
         "list_repositories"; "create_repository"; "scan_repository";
         "push_to_repository"]})
  ].


(** Running the import statements: each binds its names in the package
    namespace, or raises [ImportError] when the module is missing or does
    not define a name. *)
Fixpoint run_imports (ms : modules) (stmts : list import_from) (ns : gset string)
    : outcome (gset string) :=
  match stmts with
  | [] => Ok ns
  | st :: rest =>
      match ms !! module st with
      | None => Raise (Exception ("No module named '" +:+ module st +:+ "'"))
      | Some defs =>
          if forallb (λ n, bool_decide (n ∈ defs)) (names st)
          then run_imports ms rest (ns ∪ list_to_set (names st))
          else Raise (Exception ("cannot import name from '" +:+ module st +:+ "'"))
      end
  end.

(** [import app.jarvis.tools]: the names bound in the package. *)
Definition import_package (ms : modules) : outcome (gset string) :=
  run_imports ms imports ∅.




(** ** A mock world

    The worlds the closed examples below are evaluated in.  Its base64
    decoder is a strict one (canonical padded input only) and its
    [bytes.decode()] accepts every byte string. *)

Fixpoint index_of (c : ascii) (s : string) (i : N) : option N :=
  match s with
  | EmptyString => None
  | String d s' => if Ascii.eqb c d then Some i else index_of c s' (i + 1)%N
  end.

(** The value of a base64 digit; [-] and [_] count as [+] and [/]. *)
Definition sextet_of (c : ascii) : option N :=
  match index_of c b64_alphabet 0 with
  | Some n => Some n
  | None => index_of c urlsafe_alphabet 0
  end.

Fixpoint decode_quads (l : list ascii) : option (list N) :=
  match l with
  | [] => Some []
  | a :: b :: c :: d :: rest =>
      match sextet_of a, sextet_of b with
      | Some x, Some y =>
          let b0 := N.lor (N.shiftl x 2) (N.shiftr y 4) in
          if Ascii.eqb c pad then
            if Ascii.eqb d pad then
              match rest with [] => Some [b0] | _ => None end
            else None
          else
            match sextet_of c with
            | Some z =>
                let b1 := N.lor (N.shiftl (N.land y 15) 4) (N.shiftr z 2) in
                if Ascii.eqb d pad then
                  match rest with [] => Some [b0; b1] | _ => None end
                else
                  match sextet_of d with
                  | Some w =>
                      let b2 := N.lor (N.shiftl (N.land z 3) 6) w in
                      match decode_quads rest with
                      | Some r => Some (b0 :: b1 :: b2 :: r)
                      | None => None
                      end
                  | None => None
                  end
            | None => None
            end
      | _, _ => None
      end
  | _ => None
  end.

Definition mock_urlsafe_b64decode (v : value) : string + string :=
  match v with
  | VStr s =>
      match decode_quads (String.list_ascii_of_string s) with
      | Some bs => inl (String.string_of_list_ascii (ascii_of_N <$> bs))
      | None => inr "Incorrect padding"
      end
  | _ => inr "argument should be a bytes-like object or ASCII string"
  end.

Definition mock_creds : creds :=
  {| valid := true; expired := false; refresh_token := VStr "1//refresh" |}.

(** Two messages in the inbox: a multipart one and a plain one. *)
Definition message_m1 : value :=
  dict [("id", VStr "m1"); ("threadId", VStr "t1"); ("snippet", VStr "Hello");
        ("payload", dict [
           ("headers", VList [
              dict [("name", VStr "From"); ("value", VStr "alice@example.com")];
              dict [("name", VStr "TO"); ("value", VStr "bob@example.com")];
              dict [("name", VStr "subject"); ("value", VStr "Greetings")];
              dict [("name", VStr "Date"); ("value", VStr "Mon, 1 Jan 2024")]]);
           ("parts", VList [
              dict [("mimeType", VStr "text/html");
                    ("body", dict [("data", VStr "PGI-aGk8L2I-")])];
              dict [("mimeType", VStr "text/plain");
                    ("body", dict [("data", VStr "SGVsbG8=")])]])])].

Definition message_m2 : value :=
  dict [("id", VStr "m2"); ("threadId", VStr "t2"); ("snippet", VStr "hi");
        ("payload", dict [
           ("headers", VList [
              dict [("name", VStr "From"); ("value", VStr "carol@example.com")]]);
           ("body", dict [("data", VStr "aGk=")])])].

Definition mock_execute (s : service) (t : trace) (c : gmail_call) : outcome value :=
  match c with
  | messages_list _ _ _ =>
      Ok (dict [("messages", VList [dict [("id", VStr "m1"); ("threadId", VStr "t1")];
                                    dict [("id", VStr "m2"); ("threadId", VStr "t2")]]);
                ("resultSizeEstimate", VInt 2)])
  | messages_get _ id _ =>
      if eq_str id "m1" then Ok message_m1
      else if eq_str id "m2" then Ok message_m2
      else Raise (Exception "<HttpError 404 when requesting the message>")
  | getProfile _ => Ok (dict [("emailAddress", VStr "me@example.com")])
  | messages_send _ _ => Ok (dict [("id", VStr "sent1"); ("labelIds", VList [VStr "SENT"])])
  | messages_trash _ id => Ok (dict [("id", VStr id); ("labelIds", VList [VStr "TRASH"])])
  | messages_delete _ _ => Ok (VStr "")
  end.

(** GitHub answers: the repository list, a created repository, and for the
    other GETs and the PUT the statuses and the JSON chosen. *)
Definition mock_requests (get_status : Z) (get_json : outcome value) (put_status : Z)
    (t : trace) (c : http_call) : outcome response :=
  match c with
  | requests_get url _ =>
      if String.eqb url "https://api.github.com/user/repos" then
        Ok {| status_code := 200; text := "[...]";
              json := Ok (VList [dict [("id", VInt 1); ("name", VStr "jarvis");
                                       ("full_name", VStr "octocat/jarvis");
                                       ("html_url", VStr "https://github.com/octocat/jarvis");
                                       ("private", VBool false)]]) |}
      else
        Ok {| status_code := get_status; text := "{...}"; json := get_json |}
  | requests_post _ _ body =>
      Ok {| status_code := 201; text := "{...}";
            json := Ok (dict [("id", VInt 2); ("name", default VNone (field body "name"))]) |}
  | requests_put _ _ _ =>
      Ok {| status_code := put_status; text := "{...}";
            json := Ok (dict [("commit", dict [("sha", VStr "c0ffee");
                                               ("html_url", VStr "https://github.com/c")])]) |}
  end.

(** The mock, by what it answers: whether the Gmail token and
    credentials.json are there, what the GitHub token file holds, and the
    two APIs. *)
Definition mock_world (gmail_files : bool) (github_token : option value)
    (ex : service → trace → gmail_call → outcome value)
    (rq : trace → http_call → outcome response) : World :=
  {| gmail_token_exists := gmail_files;
     gmail_token_load := Ok mock_creds;
     creds_refresh := λ c, Ok c;
     credentials_exists := gmail_files;
     oauth_flow := Ok mock_creds;
     gmail_token_save := λ _, Ok tt;
     build := λ c, Ok (Resource c);
     execute := ex;
     github_token_exists := bool_decide (is_Some github_token);
     github_token_load := Ok (default VNone github_token);
     requests := rq;
     urlsafe_b64decode := mock_urlsafe_b64decode;
     bytes_decode := inl;
     mime_as_bytes := λ sender to subject message_text is_html,
       inl ("to: " +:+ to +:+ " subject: " +:+ subject +:+ " " +:+ message_text);
     py_repr := λ _, "<object>" |}.

Definition github_token : value :=
  dict [("username", VStr "octocat"); ("token", VStr "ghp_token")].

(** Everything in place; the GET of a push finds no file (404). *)
Definition mock : World :=
  mock_world true (Some github_token) mock_execute
    (mock_requests 404 (Ok (dict [("message", VStr "Not Found")])) 201).

(** No credentials at all. *)
Definition mock_unauthenticated : World :=
  mock_world false None mock_execute
    (mock_requests 404 (Ok (dict [("message", VStr "Not Found")])) 201).



(** The GET of a push answers 200 with the file's sha. *)
Definition mock_existing : World :=
  mock_world true (Some github_token) mock_execute
    (mock_requests 200 (Ok (dict [("name", VStr "README.md"); ("sha", VStr "abc123")]))
       200).


(** ** The vocabulary of the properties *)

(** A status/message pair. *)
Definition status_message (d : value) : Prop :=
  (field d "status" = Some (VStr "success") ∨ field d "status" = Some (VStr "error"))
  ∧ ∃ s, field d "message" = Some (VStr s).

(** The exceptions [except Exception] lets through. *)
Definition base_exception (e : exn) : Prop :=
  match e with
  | Exception _ => False
  | KeyboardInterrupt | SystemExit => True
  end.



(** The collection under key [k]: a list, empty when the status is
    "error". *)
Definition collection (k : string) (d : value) : Prop :=
  ∃ l, field d k = Some (VList l)
       ∧ (field d "status" = Some (VStr "error") → l = []).

(** Postconditions: what holds of the value a computation returns. *)
Definition post {A} (m : M A) (P : A → Prop) : Prop :=
  ∀ t, match (m t).1 with
       | Ok a => P a
       | Raise _ => True
       end.

(** Whether the credential loaders hand the tool what it needs. *)
Definition gmail_authenticated (W : World) : bool :=
  match (get_gmail_service W []).1 with
  | Ok (Some _) => true
  | _ => false
  end.

Definition github_authenticated (W : World) : bool :=
  match get_github_headers W with
  | Ok h => truthy h
  | Raise _ => false
  end.

(** The one request of [delete_email]. *)
Definition delete_call (email_id : string) (trash : bool) : gmail_call :=
  if trash then messages_trash "me" email_id else messages_delete "me" email_id.

(** The request [list_emails] fetches a listed message with. *)
Definition get_event (id : value) : event := Gmail (messages_get "me" id "full").

(** The ids of the listed messages, up to the first entry without one. *)
Fixpoint listed_ids (l : list value) : list value :=
  match l with
  | [] => []
  | msg :: rest =>
      match py_getitem msg "id" with
      | Ok id => id :: listed_ids rest
      | Raise _ => []
      end
  end.

(** The entries a list response lists. *)
Definition listed (results : outcome value) : list value :=
  match results with
  | Ok results =>
      match py_get results "messages" (VList []) with
      | Ok messages =>
          match py_iter messages with
          | Ok l => l
          | Raise _ => []
          end
      | Raise _ => []
      end
  | Raise _ => []
  end.

(** [fetched W s t l ids emails]: from history [t] on, the listed entries
    [l] are fetched one after the other, in order; their ids are [ids],
    every fetch is answered, and [emails] are the answers formatted by
    [format_message], in the same order. *)
Inductive fetched (W : World) (s : service)
    : trace → list value → list value → list value → Prop :=
| fetched_nil t : fetched W s t [] [] []
| fetched_cons t msg rest id message email ids emails :
    py_getitem msg "id" = Ok id →
    execute W s t (messages_get "me" id "full") = Ok message →
    format_message W message = Ok email →
    fetched W s (t ++ [get_event id]) rest ids emails →
    fetched W s t (msg :: rest) (id :: ids) (email :: emails).


(** An invocation that goes to the network exactly once. *)
Definition single_call (r : outcome value * trace) : Prop :=
  length (exchanges_of r.2) = 1.

(** A header given by its name and value. *)
Definition is_header (x : value) (h : string * value) : Prop :=
  py_getitem x "name" = Ok (VStr h.1) ∧ py_getitem x "value" = Ok h.2.








(** An outcome that is no exception outside [Exception]. *)
Definition catchable {A} (o : outcome A) : Prop :=
  match o with
  | Ok _ | Raise (Exception _) => True
  | Raise _ => False
  end.

(** ** github_utils.py: test_github_connection; setup_github_auth.py

    The two functions that talk to GitHub with basic authentication: the
    connection test and the interactive setup script. *)

(** [requests.get(url, auth=HTTPBasicAuth(username, password),
    headers=headers)]. *)
Record basic_get := {
  get_url : string;
  get_username : value;
  get_password : value;
  get_headers : value;
}.

(** What the two functions do to the outside: the request, and the write
    of the credentials file ([mkdir] of its directory, then
    [write_text(json.dumps(credentials))]). *)
Inductive effect :=
| BasicGet (c : basic_get)
| WriteCredentials (credentials : value).

(** GitHub and the file system, as these two functions meet them. *)
Record Setup := {
  user_get : basic_get → outcome response;
  credentials_write : value → outcome unit;
}.

(** Their monad: the effects so far, and a value or an exception. *)
Definition E (A : Type) : Type := list effect → outcome A * list effect.

Definition eret {A} (a : A) : E A := λ t, (Ok a, t).

Definition ebind {A B} (m : E A) (k : A → E B) : E B :=
  λ t, match m t with
       | (Ok a, t') => k a t'
       | (Raise e, t') => (Raise e, t')
       end.

Definition elift {A} (o : outcome A) : E A := λ t, (o, t).

Definition effect_of {A} (ev : effect) (answer : outcome A) : E A :=
  λ t, (answer, t ++ [ev]).

Definition etry {A} (body : E A) (handler : string → E A) : E A :=
  λ t, match body t with
       | (Raise (Exception s), t') => handler s t'
       | r => r
       end.

Notation "'let!' x ':=' m 'in' k" := (ebind m (λ x, k))
  (at level 10, x name, m at level 100, k at level 200, only parsing).
Notation "'do!' m 'in' k" := (ebind m (λ _, k))
  (at level 10, m at level 100, k at level 200, only parsing).

Section Connection.

Variable W : World.
Variable G : Setup.

(** The request both functions send. *)
Definition user_request (username token : value) : basic_get :=
  {| get_url := "https://api.github.com/user";
     get_username := username;
     get_password := token;
     get_headers := dict [("Accept", VStr "application/vnd.github.v3+json")] |}.

(** [test_github_connection].  The credentials are read before the [try];
    [response.json()] is called twice on success. *)
Definition test_github_connection : E value :=
  let! auth := elift (get_github_auth W) in
  let (username, token) := auth in
  if negb (truthy username) || negb (truthy token) then
    eret (dict [("status", VStr "error");
                ("message",
                 VStr "GitHub credentials not found. Please run setup_github_auth.py.")])
  else
    etry
      (let c := user_request username token in
       let! response := effect_of (BasicGet c) (user_get G c) in
       if (status_code response =? 200)%Z then
         let! j := elift (json response) in
         let! login := elift (py_getitem j "login") in
         let! user := elift (json response) in
         eret (dict [("status", VStr "success");
                     ("message",
                      VStr ("Connected to GitHub as " +:+ py_str (py_repr W) login));
                     ("user", user)])
       else
         eret (dict [("status", VStr "error");
                     ("message", VStr (github_api_error response))]))
      (λ e,
         eret (dict [("status", VStr "error");
                     ("message", VStr ("Error connecting to GitHub: " +:+ e))])).

(** The [credentials] dictionary [setup_oauth] saves. *)
Definition saved_credentials (username token : string) : value :=
  dict [("username", VStr username); ("token", VStr token)].

(** [setup_oauth], from the two lines read with [input()] on.  What it
    prints is not modelled, except that the success line formats
    [user_data['login']], which can fail. *)
Definition setup_oauth (username token : string) : E bool :=
  etry
    (let c := user_request (VStr username) (VStr token) in
     let! response := effect_of (BasicGet c) (user_get G c) in
     if (status_code response =? 200)%Z then
       let! user_data := elift (json response) in
       do! elift (py_getitem user_data "login") in
       let credentials := saved_credentials username token in
       do! effect_of (WriteCredentials credentials) (credentials_write G credentials) in
       eret true
     else eret false)
    (λ _, eret false).

End Connection.

(** ** More vocabulary *)

(** The effects of the credential loader, one by one. *)
Definition loader_traces : list trace :=
  [[]; [TokenRefresh]; [TokenRefresh; TokenWrite]; [OAuthFlow]; [OAuthFlow; TokenWrite]].

(** The token on disk cannot be used as it is, nor refreshed. *)
Definition no_usable_token (W : World) : Prop :=
  gmail_token_exists W = false
  ∨ ∃ c, gmail_token_exists W = true ∧ gmail_token_load W = Ok c
         ∧ valid c = false ∧ expired c && truthy (refresh_token c) = false.

(** A reshaped object: under each output key, the field of [d] it is
    taken from, or [None]. *)
Definition summary (fields : list (string * string)) (d : gmap string value) : value :=
  dict ((λ f, (f.1, default VNone (d !! f.2))) <$> fields).

Definition repo_fields : list (string * string) :=
  [("id", "id"); ("name", "name"); ("full_name", "full_name");
   ("description", "description"); ("url", "html_url"); ("private", "private");
   ("created_at", "created_at"); ("updated_at", "updated_at");
   ("language", "language")].

Definition created_fields : list (string * string) :=
  [("id", "id"); ("name", "name"); ("full_name", "full_name");
   ("description", "description"); ("url", "html_url"); ("clone_url", "clone_url");
   ("private", "private")].

Definition item_fields : list (string * string) :=
  [("name", "name"); ("path", "path"); ("type", "type"); ("size", "size");
   ("url", "html_url")].

(** The summary of a JSON object; [None] for anything else. *)
Definition summary_of (fields : list (string * string)) (v : value) : option value :=
  match v with
  | VDict d => Some (summary fields d)
  | _ => None
  end.

(** Two headers with the same value whose names agree up to case. *)
Definition same_header (x y : value) : Prop :=
  ∃ n n' v, is_header x (n, v) ∧ is_header y (n', v) ∧ lower n = lower n'.

(** The two alphabets of RFC 4648. *)
Definition is_b64_alphabet (alphabet : string) : Prop :=
  alphabet = b64_alphabet ∨ alphabet = urlsafe_alphabet.

(** The numbers below [k]. *)
Definition below (k : nat) : list N := N.of_nat <$> seq 0 k.

(** GitHub accepted the credentials: a 200 whose JSON carries a login. *)
Definition accepted (G : Setup) (c : basic_get) : Prop :=
  ∃ r j login, user_get G c = Ok r ∧ status_code r = 200%Z
               ∧ json r = Ok j ∧ py_getitem j "login" = Ok login.

(** A message whose second header has no name. *)
Definition message_nameless_header : value :=
  dict [("id", VStr "m4");
        ("payload", dict [
           ("headers", VList [
              dict [("name", VStr "From"); ("value", VStr "erin@example.com")];
              dict [("value", VStr "orphan")]])])].

(** Credentials that need a refresh and can get one. *)
Definition expired_creds : creds :=
  {| valid := false; expired := true; refresh_token := VStr "1//refresh" |}.

(** A world whose stored Gmail token has expired; the refresh is answered
    as [refreshed] says. *)
Definition mock_expired (refreshed : outcome creds) : World :=
  {| gmail_token_exists := true;
     gmail_token_load := Ok expired_creds;
     creds_refresh := λ _, refreshed;
     credentials_exists := true;
     oauth_flow := Ok mock_creds;
     gmail_token_save := λ _, Ok tt;
     build := λ c, Ok (Resource c);
     execute := mock_execute;
     github_token_exists := false;
     github_token_load := Ok VNone;
     requests := λ _ _, Raise (Exception "connection refused");
     urlsafe_b64decode := mock_urlsafe_b64decode;
     bytes_decode := inl;
     mime_as_bytes := λ _ _ _ _ _, inl "";
     py_repr := λ _, "<object>" |}.

(** The Gmail API loses the second message between the listing and the
    fetch. *)
Definition mock_execute_gone (s : service) (t : trace) (c : gmail_call) : outcome value :=
  match c with
  | messages_get _ id _ =>
      if eq_str id "m2" then Raise (Exception "<HttpError 404: Not Found>")
      else mock_execute s t c
  | messages_send _ _ => Ok (dict [("labelIds", VList [VStr "SENT"])])
  | _ => mock_execute s t c
  end.

Definition mock_gone : World :=
  mock_world true (Some github_token) mock_execute_gone
    (mock_requests 200 (Ok (VList [dict [("name", VStr "README.md")]])) 201).

(** GitHub, answering the basic-auth request with [status] and [body]. *)
Definition mock_setup (status : Z) (body : outcome value) : Setup :=
  {| user_get := λ _, Ok {| status_code := status; text := "{...}"; json := body |};
     credentials_write := λ _, Ok tt |}.

(** A world whose GitHub token file holds [v]. *)
Definition mock_token_file (v : value) : World :=
  mock_world true (Some v) mock_execute
    (mock_requests 404 (Ok (dict [("message", VStr "Not Found")])) 201).

(** ** Reasoning about dictionaries and computations *)

Lemma field_dict_here k v l : field (dict ((k, v) :: l)) k = Some v.
Proof. unfold field, dict. simpl. apply lookup_insert_eq. Qed.

Lemma field_dict_next k k' v l :
  k' ≠ k → field (dict ((k', v) :: l)) k = field (dict l) k.
Proof. intros Hne. unfold field, dict. simpl. by apply lookup_insert_ne. Qed.

Lemma field_dict_nil k : field (dict []) k = None.
Proof. unfold field, dict. simpl. apply lookup_empty. Qed.

(** Looks a literal key up in a dict display. *)
Ltac fields :=
  repeat first
    [ rewrite field_dict_here
    | rewrite field_dict_next by discriminate
    | rewrite field_dict_nil ].

Lemma post_ret {A} (a : A) (P : A → Prop) : P a → post (ret a) P.
Proof. intros Ha t. exact Ha. Qed.

Lemma post_bind {A B} (m : M A) (k : A → M B) (P : B → Prop) :
  (∀ a, post (k a) P) → post (bind m k) P.
Proof.
  intros Hk t. unfold bind.
  destruct (m t) as [[a|e] t']; simpl; [apply Hk | exact I].
Qed.

Lemma post_try_except {A} (body : M A) (handler : string → M A) (P : A → Prop) :
  post body P → (∀ s, post (handler s) P) → post (try_except body handler) P.
Proof.
  intros Hb Hh t. unfold try_except. specialize (Hb t).
  destruct (body t) as [[a|[s| |]] t']; simpl in *; auto.
  apply Hh.
Qed.


(** Walks a tool's body down to its [return] statements. *)
Ltac returns :=
  repeat match goal with
    | |- post (bind _ _) _ => apply post_bind; intros ?
    | |- post (ret _) _ => apply post_ret
    | |- post (if ?b then _ else _) _ => destruct b
    | |- post (match ?o with _ => _ end) _ => destruct o
    end.

Ltac status_message_dict :=
  split; [ fields; auto | eexists; fields; reflexivity ].

Ltac collection_dict :=
  eexists; split; [ fields; reflexivity | fields; try reflexivity; try discriminate ].

Section Returned.

Variable W : World.

Lemma list_emails_post max_results query label :
  post (list_emails W max_results query label) (collection "emails").
Proof.
  unfold list_emails. apply post_try_except; [| intros s]; returns; collection_dict.
Qed.

Lemma list_repositories_post :
  post (list_repositories W) (collection "repositories").
Proof.
  unfold list_repositories. apply post_try_except; [| intros s]; returns;
    collection_dict.
Qed.

Lemma scan_repository_post repo_name path :
  post (scan_repository W repo_name path) (collection "contents").
Proof.
  unfold scan_repository. apply post_try_except; [| intros s]; returns;
    collection_dict.
Qed.

End Returned.

(** What [post] says of an invocation. *)
Lemma post_run {A} (m : M A) (P : A → Prop) a t :
  post m P → run m = (Ok a, t) → P a.
Proof. intros Hm Hr. specialize (Hm []). unfold run in Hr. by rewrite Hr in Hm. Qed.


(** ** C1: the status/message contract *)



(** ** C8: the collection keys *)

(** C8: every dictionary [list_emails] returns has the key "emails", every
    one [list_repositories] returns has "repositories", every one
    [scan_repository] returns has "contents"; the key is bound to a list,
    and the list is empty whenever the status is "error". *)
Theorem C8_collection_keys (W : World) :
  (∀ max_results query label d t,
     run (list_emails W max_results query label) = (Ok d, t) →
     collection "emails" d)
  ∧ (∀ d t, run (list_repositories W) = (Ok d, t) → collection "repositories" d)
  ∧ (∀ repo_name path d t,
       run (scan_repository W repo_name path) = (Ok d, t) →
       collection "contents" d).
Proof.
  repeat split; intros.
  - eapply post_run; [apply list_emails_post | eassumption].
  - eapply post_run; [apply list_repositories_post | eassumption].
  - eapply post_run; [apply scan_repository_post | eassumption].
Qed.

(** C8 at work: the authentication failure of [list_emails] and a 404 of
    [scan_repository] both keep their collection key, bound to []. *)
Lemma C8_collection_keys_witness :
  collection "emails"
    (dict [("status", VStr "error");
           ("message", VStr "Failed to authenticate with Gmail. Please check credentials.");
           ("emails", VList [])])
  ∧ collection "contents"
      (dict [("status", VStr "error");
             ("message", VStr "GitHub API error: 404 - {...}");
             ("contents", VList [])]).
Proof.
  split.
  - destruct (C8_collection_keys mock_unauthenticated) as (Hemails & _ & _).
    apply (Hemails 10%Z "" "INBOX" _ []). reflexivity.
  - destruct (C8_collection_keys mock) as (_ & _ & Hcontents).
    apply (Hcontents "octocat/jarvis" "docs" _
             [Http (requests_get
                      "https://api.github.com/repos/octocat/jarvis/contents/docs"
                      (dict [("Accept", VStr "application/vnd.github.v3+json");
                             ("Authorization", VStr "token ghp_token")]))]).
    reflexivity.
Defined.

(** ** Authentication *)

(** Unfolds the monad of a tool down to the answers of the world. *)
Ltac exec := cbv [run try_except bind ret lift emit gmail http].

(** Splits on the next answer the goal depends on. *)
Ltac innermost x :=
  lazymatch x with
  | context [match ?y with _ => _ end] => innermost y
  | _ => x
  end.

Ltac answer :=
  cbn [fst snd negb];
  match goal with
  | |- context [match ?x with _ => _ end] =>
      let y := innermost x in destruct y eqn:?
  end.

(** Follows the branch a known answer selects. *)
Ltac known H := rewrite H; cbn [negb orb fst snd app].

(** The credential loader issues no API request of its own. *)
Lemma get_gmail_service_requests W t0 :
  requests_of (get_gmail_service W t0).2 = requests_of t0.
Proof.
  unfold get_gmail_service, login, save_and_build, requests_of. exec.
  repeat answer; simpl; rewrite ?List.filter_app; simpl;
    rewrite ?app_nil_r; reflexivity.
Qed.

(** It returns [None] on one path only, the one that touches nothing:
    no usable token and no credentials.json. *)
Lemma get_gmail_service_None W t0 t :
  get_gmail_service W t0 = (Ok None, t) → t = t0.
Proof.
  unfold get_gmail_service, login, save_and_build. exec.
  repeat answer; intros; simplify_eq; reflexivity.
Qed.

Lemma get_gmail_service_None_run W t :
  get_gmail_service W [] = (Ok None, t) → get_gmail_service W [] = (Ok None, []).
Proof. intros H. by rewrite (get_gmail_service_None _ _ _ H) in H. Qed.

(** ** C6: authentication comes first *)

(** C6: when credential loading fails (the Gmail service or the GitHub
    headers are None), every tool returns a dictionary with status "error"
    and the authentication-failure message, and the invocation's trace is
    empty: no HTTP or API request is issued, nor anything else done. *)
Theorem C6_authentication_first (W : World) :
  (∀ t, get_gmail_service W [] = (Ok None, t) →
     (∀ max_results query label,
        run (list_emails W max_results query label)
        = (Ok (dict [("status", VStr "error");
                     ("message", VStr "Failed to authenticate with Gmail. Please check credentials.");
                     ("emails", VList [])]), []))
     ∧ (∀ email_id,
          run (read_email W email_id)
          = (Ok (dict [("status", VStr "error");
                       ("message", VStr "Failed to authenticate with Gmail. Please check credentials.")]), []))
     ∧ (∀ to subject body is_html,
          run (send_email W to subject body is_html)
          = (Ok (dict [("status", VStr "error");
                       ("message", VStr "Failed to authenticate with Gmail. Please check credentials.")]), []))
     ∧ (∀ email_id trash,
          run (delete_email W email_id trash)
          = (Ok (dict [("status", VStr "error");
                       ("message", VStr "Failed to authenticate with Gmail. Please check credentials.")]), [])))
  ∧ (get_github_headers W = Ok VNone →
     run (list_repositories W)
     = (Ok (dict [("status", VStr "error");
                  ("message", VStr "Failed to authenticate with GitHub. Please check credentials.");
                  ("repositories", VList [])]), [])
     ∧ (∀ name description private,
          run (create_repository W name description private)
          = (Ok (dict [("status", VStr "error");
                       ("message", VStr "Failed to authenticate with GitHub. Please check credentials.")]), []))
     ∧ (∀ repo_name path,
          run (scan_repository W repo_name path)
          = (Ok (dict [("status", VStr "error");
                       ("message", VStr "Failed to authenticate with GitHub. Please check credentials.");
                       ("contents", VList [])]), []))
     ∧ (∀ repo_name file_path content commit_message,
          run (push_to_repository W repo_name file_path content commit_message)
          = (Ok (dict [("status", VStr "error");
                       ("message", VStr "Failed to authenticate with GitHub. Please check credentials.")]), []))).
Proof.
  split.
  - intros t Hnone. apply get_gmail_service_None_run in Hnone.
    repeat split; intros.
    + unfold list_emails. exec. rewrite Hnone. reflexivity.
    + unfold read_email. exec. rewrite Hnone. reflexivity.
    + unfold send_email. exec. rewrite Hnone. reflexivity.
    + unfold delete_email. exec. rewrite Hnone. reflexivity.
  - intros Hnone. repeat split; intros.
    + unfold list_repositories. exec. rewrite Hnone. reflexivity.
    + unfold create_repository. exec. rewrite Hnone. reflexivity.
    + unfold scan_repository. exec. rewrite Hnone. reflexivity.
    + unfold push_to_repository. exec. rewrite Hnone. reflexivity.
Qed.

(** C6 at work: with no credentials on disk both loaders return None. *)
Lemma C6_authentication_first_witness :
  run (delete_email mock_unauthenticated "m1" true)
  = (Ok (dict [("status", VStr "error");
               ("message", VStr "Failed to authenticate with Gmail. Please check credentials.")]), [])
  ∧ run (list_repositories mock_unauthenticated)
    = (Ok (dict [("status", VStr "error");
                 ("message", VStr "Failed to authenticate with GitHub. Please check credentials.");
                 ("repositories", VList [])]), []).
Proof.
  destruct (C6_authentication_first mock_unauthenticated) as [Hgmail Hgithub].
  split.
  - apply (Hgmail []). reflexivity.
  - apply Hgithub. reflexivity.
Defined.

(** ** The requests of an invocation *)

(** Reads the requests off a trace built by [emit]; [H] says the
    credential loader contributed none. *)
Ltac requests H :=
  simpl; unfold requests_of in *; rewrite ?List.filter_app; simpl; rewrite ?H; simpl.

Section Requests.

Variable W : World.

Lemma delete_email_requests email_id trash :
  requests_of (run (delete_email W email_id trash)).2
  = if gmail_authenticated W then [Gmail (delete_call email_id trash)] else [].
Proof.
  unfold delete_email, gmail_authenticated. exec.
  pose proof (get_gmail_service_requests W []) as Hauth.
  destruct (get_gmail_service W []) as [[[s|]|e] t0]; simpl in Hauth.
  - destruct trash; repeat answer; requests Hauth; reflexivity.
  - requests Hauth; reflexivity.
  - repeat answer; requests Hauth; reflexivity.
Qed.



(** The loop fetches the listed ids in order and stops at the first
    failure: what it adds to the trace is a prefix of the listed ids. *)
Lemma fetch_emails_trace s l emails t :
  ∃ k, (fetch_emails W s l emails t).2 = t ++ (get_event <$> take k (listed_ids l)).
Proof.
  revert emails t. induction l as [|msg rest IH]; intros emails t.
  - exists 0. simpl. exec. by rewrite app_nil_r.
  - simpl. exec. destruct (py_getitem msg "id") as [id|e].
    + destruct (execute W s t (messages_get "me" id "full")) as [message|e].
      * destruct (format_message W message) as [email|e]; simpl.
        -- destruct (IH (emails ++ [email]) (t ++ [Gmail (messages_get "me" id "full")]))
             as [k Hk].
           exists (S k). rewrite Hk. simpl. by rewrite <- app_assoc.
        -- by exists 1.
      * by exists 1.
    + exists 0. simpl. by rewrite app_nil_r.
Qed.






(** The whole trace of an invocation: what the credential loader did,
    followed by the requests of the tool itself. *)
Lemma get_gmail_service_exchanges :
  length (exchanges_of (get_gmail_service W []).2) ≤ 1.
Proof.
  unfold get_gmail_service, login, save_and_build. exec.
  repeat answer; simpl; lia.
Qed.

Lemma read_email_events email_id :
  (run (read_email W email_id)).2
  = (get_gmail_service W []).2
    ++ (if gmail_authenticated W then [get_event (VStr email_id)] else []).
Proof.
  unfold read_email, gmail_authenticated. exec.
  destruct (get_gmail_service W []) as [[[s|]|e] t0]; simpl;
    repeat answer; simpl; rewrite ?app_nil_r; reflexivity.
Qed.

Lemma delete_email_events email_id trash :
  (run (delete_email W email_id trash)).2
  = (get_gmail_service W []).2
    ++ (if gmail_authenticated W then [Gmail (delete_call email_id trash)] else []).
Proof.
  unfold delete_email, gmail_authenticated. exec.
  destruct (get_gmail_service W []) as [[[s|]|e] t0]; simpl;
    [destruct trash | |];
    repeat answer; simpl; rewrite ?app_nil_r; reflexivity.
Qed.

Lemma send_email_events to subject body is_html :
  let t := (run (send_email W to subject body is_html)).2 in
  let auth := (get_gmail_service W []).2 in
  if gmail_authenticated W
  then t = auth ++ [Gmail (getProfile "me")]
       ∨ ∃ message,
           t = auth ++ [Gmail (getProfile "me"); Gmail (messages_send "me" message)]
  else t = auth.
Proof.
  unfold send_email, gmail_authenticated. exec.
  destruct (get_gmail_service W []) as [[[s|]|e] t0]; simpl;
    repeat answer; simpl; rewrite <- ?app_assoc; simpl; eauto.
Qed.

Lemma list_emails_events max_results query label :
  let t := (run (list_emails W max_results query label)).2 in
  let list_call := messages_list "me" (search_query query label) max_results in
  match get_gmail_service W [] with
  | (Ok (Some s), t0) =>
      ∃ k, t = t0 ++ Gmail list_call
                     :: (get_event <$>
                           take k (listed_ids (listed (execute W s t0 list_call))))
  | (_, t0) => t = t0
  end.
Proof.
  unfold list_emails. exec.
  destruct (get_gmail_service W []) as [[[s|]|e] t0]; simpl.
  - unfold listed. set (c := messages_list "me" (search_query query label) max_results).
    destruct (execute W s t0 c) as [results|e];
      [| exists 0; destruct e; reflexivity].
    destruct (py_get results "messages" (VList [])) as [messages|e];
      [| exists 0; destruct e; reflexivity].
    destruct (truthy messages); cbn [negb];
      [| exists 0; reflexivity].
    destruct (py_iter messages) as [l|e];
      [| exists 0; destruct e; reflexivity].
    destruct (fetch_emails_trace s l [] (t0 ++ [Gmail c])) as [k Hk].
    exists k.
    destruct (fetch_emails W s l [] (t0 ++ [Gmail c])) as [[emails|e] t'];
      simpl in Hk; subst t'; [| destruct e]; simpl; by rewrite <- app_assoc.
  - reflexivity.
  - destruct e; reflexivity.
Qed.

Lemma list_repositories_events :
  (run (list_repositories W)).2
  = match get_github_headers W with
    | Ok h =>
        if truthy h
        then [Http (requests_get "https://api.github.com/user/repos" h)]
        else []
    | Raise _ => []
    end.
Proof.
  unfold list_repositories. exec.
  destruct (get_github_headers W) as [h|e]; [destruct (truthy h) |];
    repeat answer; reflexivity.
Qed.

Lemma create_repository_events name description private :
  (run (create_repository W name description private)).2
  = match get_github_headers W with
    | Ok h =>
        if truthy h
        then [Http (requests_post "https://api.github.com/user/repos" h
                      (dict [("name", VStr name);
                             ("description", VStr description);
                             ("private", VBool private);
                             ("auto_init", VBool true)]))]
        else []
    | Raise _ => []
    end.
Proof.
  unfold create_repository. exec.
  destruct (get_github_headers W) as [h|e]; [destruct (truthy h) |];
    repeat answer; reflexivity.
Qed.

Lemma scan_repository_events repo_name path :
  (run (scan_repository W repo_name path)).2
  = match get_github_headers W with
    | Ok h =>
        if truthy h
        then [Http (requests_get (contents_url repo_name path) h)]
        else []
    | Raise _ => []
    end.
Proof.
  unfold scan_repository. exec.
  destruct (get_github_headers W) as [h|e]; [destruct (truthy h) |];
    repeat answer; reflexivity.
Qed.

Lemma push_to_repository_events repo_name file_path content commit_message :
  let t := (run (push_to_repository W repo_name file_path content commit_message)).2 in
  match get_github_headers W with
  | Ok h =>
      if truthy h
      then t = [Http (requests_get (push_url repo_name file_path) h)]
           ∨ ∃ data, t = [Http (requests_get (push_url repo_name file_path) h);
                          Http (requests_put (push_url repo_name file_path) h data)]
      else t = []
  | Raise _ => t = []
  end.
Proof.
  unfold push_to_repository. exec.
  destruct (get_github_headers W) as [h|e]; [destruct (truthy h) |];
    repeat answer; simpl; eauto.
Qed.

End Requests.

(** ** C2: how many requests an invocation issues *)

(** C2, as stated, fails: a push with credentials in place issues two
    requests, the GET for the file and the PUT; and [read_email], whose
    only API request is the get, goes to the network twice when the stored
    token has expired, the refresh coming first. *)
Lemma C2_push_issues_two_requests :
  length (exchanges_of
            (run (push_to_repository mock "octocat/jarvis" "README.md" "hello"
                    "Add greeting")).2) = 2
  ∧ ¬ single_call (run (push_to_repository mock "octocat/jarvis" "README.md" "hello"
                          "Add greeting"))
  ∧ exchanges_of (run (read_email (mock_expired (Ok mock_creds)) "m1")).2
    = [TokenRefresh; get_event (VStr "m1")]
  ∧ ¬ single_call (run (read_email (mock_expired (Ok mock_creds)) "m1")).
Proof.
  split; [vm_compute; reflexivity |].
  split; [intros H; vm_compute in H; discriminate |].
  split; [vm_compute; reflexivity |].
  intros H. vm_compute in H. discriminate.
Qed.

(** C2, amended.  The whole trace of an invocation is what the credential
    loader did, followed by the API requests of the tool.  The loader of
    the Gmail tools goes to the network at most once, for a token refresh
    or for the consent flow, and not at all when it returns None; the
    loader of the GitHub tools reads a file and nothing else.  After it, a
    tool issues no request when the service or the headers were not
    obtained.  Otherwise [read_email], [delete_email], [list_repositories],
    [create_repository] and [scan_repository] issue exactly one request;
    [send_email] issues one or two (getProfile, then send);
    [push_to_repository] issues one or two (GET, then PUT); [list_emails]
    issues the list request and then at most one get per listed message. *)
Theorem C2_requests_per_invocation (W : World) :
  let auth := (get_gmail_service W []).2 in
  length (exchanges_of auth) ≤ 1
  ∧ match (get_gmail_service W []).1 with
    | Ok None => auth = []
    | _ => True
    end
  ∧ (∀ email_id,
       (run (read_email W email_id)).2
       = auth ++ (if gmail_authenticated W then [get_event (VStr email_id)] else []))
  ∧ (∀ email_id trash,
       (run (delete_email W email_id trash)).2
       = auth ++ (if gmail_authenticated W
                  then [Gmail (delete_call email_id trash)] else []))
  ∧ (∀ to subject body is_html,
       let t := (run (send_email W to subject body is_html)).2 in
       if gmail_authenticated W
       then t = auth ++ [Gmail (getProfile "me")]
            ∨ ∃ message,
                t = auth ++ [Gmail (getProfile "me"); Gmail (messages_send "me" message)]
       else t = auth)
  ∧ (∀ max_results query label,
       let t := (run (list_emails W max_results query label)).2 in
       let list_call := messages_list "me" (search_query query label) max_results in
       match get_gmail_service W [] with
       | (Ok (Some s), _) =>
           ∃ ids,
             t = auth ++ Gmail list_call :: (get_event <$> ids)
             ∧ length ids ≤ length (listed (execute W s auth list_call))
       | _ => t = auth
       end)
  ∧ (run (list_repositories W)).2
    = match get_github_headers W with
      | Ok h =>
          if truthy h
          then [Http (requests_get "https://api.github.com/user/repos" h)]
          else []
      | Raise _ => []
      end
  ∧ (∀ name description private,
       (run (create_repository W name description private)).2
       = match get_github_headers W with
         | Ok h =>
             if truthy h
             then [Http (requests_post "https://api.github.com/user/repos" h
                           (dict [("name", VStr name);
                                  ("description", VStr description);
                                  ("private", VBool private);
                                  ("auto_init", VBool true)]))]
             else []
         | Raise _ => []
         end)
  ∧ (∀ repo_name path,
       (run (scan_repository W repo_name path)).2
       = match get_github_headers W with
         | Ok h =>
             if truthy h
             then [Http (requests_get (contents_url repo_name path) h)]
             else []
         | Raise _ => []
         end)
  ∧ (∀ repo_name file_path content commit_message,
       let t := (run (push_to_repository W repo_name file_path content
                        commit_message)).2 in
       match get_github_headers W with
       | Ok h =>
           if truthy h
           then t = [Http (requests_get (push_url repo_name file_path) h)]
                ∨ ∃ data,
                    t = [Http (requests_get (push_url repo_name file_path) h);
                         Http (requests_put (push_url repo_name file_path) h data)]
           else t = []
       | Raise _ => t = []
       end).
Proof.
  split; [apply get_gmail_service_exchanges |].
  split.
  { destruct (get_gmail_service W []) as [[[s|]|e] t0] eqn:Hauth; simpl; [done | | done].
    by apply get_gmail_service_None in Hauth. }
  split; [apply read_email_events |].
  split; [apply delete_email_events |].
  split; [apply send_email_events |].
  split.
  { intros max_results query label.
    pose proof (list_emails_events W max_results query label) as H. simpl in H. simpl.
    destruct (get_gmail_service W []) as [[[s|]|e] t0]; simpl; try exact H.
    destruct H as [k ->]. eexists. split; [reflexivity |].
    rewrite length_take.
    assert (Hids : ∀ l, length (listed_ids l) ≤ length l).
    { induction l as [|msg rest IH]; simpl; [lia |].
      destruct (py_getitem msg "id"); simpl; lia. }
    specialize (Hids (listed (execute W s t0
      (messages_list "me" (search_query query label) max_results)))).
    lia. }
  split; [apply list_repositories_events |].
  split; [apply create_repository_events |].
  split; [apply scan_repository_events |].
  apply push_to_repository_events.
Qed.

(** C2 at work: the stored token has expired, so [read_email] refreshes
    it, saves it and then sends its one request. *)
Lemma C2_requests_per_invocation_witness :
  (run (read_email (mock_expired (Ok mock_creds)) "m1")).2
  = [TokenRefresh; TokenWrite; get_event (VStr "m1")].
Proof.
  destruct (C2_requests_per_invocation (mock_expired (Ok mock_creds)))
    as (_ & _ & Hread & _).
  exact (Hread "m1").
Defined.

(** ** C10: the trash flag of delete_email *)

(** C10: [delete_email] issues the trash request and nothing else when
    [trash] is true (the default), the permanent delete request and
    nothing else when it is false, never both; when the request is
    answered it returns "Email moved to trash successfully", respectively
    "Email permanently deleted successfully". *)
Theorem C10_delete_email_trash_flag (W : World) (email_id : string) (trash : bool) :
  delete_email_trash = true
  ∧ requests_of (run (delete_email W email_id trash)).2
    = (if gmail_authenticated W
       then [Gmail (if trash then messages_trash "me" email_id
                    else messages_delete "me" email_id)]
       else [])
  ∧ (∀ s t0 v,
       get_gmail_service W [] = (Ok (Some s), t0) →
       execute W s t0 (if trash then messages_trash "me" email_id
                       else messages_delete "me" email_id) = Ok v →
       run (delete_email W email_id trash)
       = (Ok (dict [("status", VStr "success");
                    ("message",
                     VStr (if trash then "Email moved to trash successfully"
                           else "Email permanently deleted successfully"))]),
          t0 ++ [Gmail (if trash then messages_trash "me" email_id
                        else messages_delete "me" email_id)])).
Proof.
  split; [reflexivity |]. split.
  - rewrite delete_email_requests. unfold delete_call.
    by destruct (gmail_authenticated W), trash.
  - intros s t0 v Hauth Hcall. unfold delete_email. exec. rewrite Hauth.
    destruct trash; rewrite Hcall; reflexivity.
Qed.

(** C10 at work: trashing and deleting message m1 in the mock. *)
Lemma C10_delete_email_trash_flag_witness :
  run (delete_email mock "m1" true)
  = (Ok (dict [("status", VStr "success");
               ("message", VStr "Email moved to trash successfully")]),
     [Gmail (messages_trash "me" "m1")])
  ∧ run (delete_email mock "m1" false)
    = (Ok (dict [("status", VStr "success");
                 ("message", VStr "Email permanently deleted successfully")]),
       [Gmail (messages_delete "me" "m1")]).
Proof.
  split.
  - destruct (C10_delete_email_trash_flag mock "m1" true) as (_ & _ & H).
    apply (H (Resource mock_creds) [] (dict [("id", VStr "m1");
                                             ("labelIds", VList [VStr "TRASH"])]));
      reflexivity.
  - destruct (C10_delete_email_trash_flag mock "m1" false) as (_ & _ & H).
    apply (H (Resource mock_creds) [] (VStr "")); reflexivity.
Defined.

(** ** C7: no retries *)






(** ** C9: push_to_repository is an upsert *)

(** The entries of the PUT body. *)
Lemma push_data_message commit_message content sha :
  push_data commit_message content sha !! "message" = Some (VStr commit_message).
Proof.
  unfold push_data. destruct (truthy sha); simpl;
    rewrite ?(lookup_insert_ne _ "sha") by discriminate; apply lookup_insert_eq.
Qed.

Lemma push_data_content commit_message content sha :
  push_data commit_message content sha !! "content" = Some (VStr (b64encode content)).
Proof.
  unfold push_data. destruct (truthy sha); simpl;
    rewrite ?(lookup_insert_ne _ "sha") by discriminate;
    (rewrite lookup_insert_ne by discriminate); apply lookup_insert_eq.
Qed.


(** The encoder agrees with the test vectors of RFC 4648. *)
Lemma b64encode_vectors :
  b64encode "" = "" ∧ b64encode "f" = "Zg==" ∧ b64encode "fo" = "Zm8="
  ∧ b64encode "foo" = "Zm9v" ∧ b64encode "foob" = "Zm9vYg=="
  ∧ b64encode "fooba" = "Zm9vYmE=" ∧ b64encode "foobar" = "Zm9vYmFy".
Proof. repeat split; vm_compute; reflexivity. Qed.




(** ** C5: list_emails *)








(** ** C4: format_message *)

Lemma catchable_obind {A B} (o : outcome A) (k : A → outcome B) :
  catchable o → (∀ a, catchable (k a)) → catchable (obind o k).
Proof. destruct o as [a|e]; simpl; auto. Qed.

Lemma catchable_py_get v k d : catchable (py_get v k d).
Proof. destruct v; exact I. Qed.

Lemma catchable_py_getitem v k : catchable (py_getitem v k).
Proof. destruct v as [| | | | |d]; try exact I. simpl. by destruct (d !! k). Qed.

Lemma catchable_py_contains k v : catchable (py_contains k v).
Proof. destruct v; exact I. Qed.

Lemma catchable_py_iter v : catchable (py_iter v).
Proof. destruct v; exact I. Qed.

Lemma catchable_raising {A} (r : A + string) : catchable (raising r).
Proof. destruct r; exact I. Qed.

Lemma catchable_decode_body W data : catchable (decode_body W data).
Proof.
  unfold decode_body. apply catchable_obind; [apply catchable_raising |].
  intros b. apply catchable_raising.
Qed.

Ltac catchable :=
  repeat match goal with
    | |- catchable (obind _ _) => apply catchable_obind; [| intros ?]
    | |- catchable (py_get _ _ _) => apply catchable_py_get
    | |- catchable (py_getitem _ _) => apply catchable_py_getitem
    | |- catchable (py_contains _ _) => apply catchable_py_contains
    | |- catchable (py_iter _) => apply catchable_py_iter
    | |- catchable (decode_body _ _) => apply catchable_decode_body
    | |- catchable (Ok _) => exact I
    | |- catchable (if ?b then _ else _) => destruct b
    end.









Lemma payload_present (m p : gmap string value) k :
  default (dict []) (m !! "payload") = VDict p → is_Some (p !! k) →
  m !! "payload" = Some (VDict p).
Proof.
  intros Hp [x Hx]. destruct (m !! "payload") as [y|]; simpl in Hp; [by subst |].
  unfold dict in Hp. simpl in Hp. injection Hp as <-. by rewrite lookup_empty in Hx.
Qed.

Lemma extract_body_parts W (m p : gmap string value) parts :
  default (dict []) (m !! "payload") = VDict p →
  p !! "parts" = Some parts →
  extract_body W (VDict m) = obind (py_iter parts) (λ l, scan_parts W l "").
Proof.
  intros Hp Hparts. unfold extract_body. simpl. rewrite Hp. simpl.
  rewrite Hparts. simpl.
  rewrite (payload_present m p "parts" Hp) by (by rewrite Hparts). simpl.
  by rewrite Hparts.
Qed.

Lemma extract_body_no_parts W (m p : gmap string value) :
  default (dict []) (m !! "payload") = VDict p →
  p !! "parts" = None →
  extract_body W (VDict m)
  = match p !! "body" with
    | None => Ok ""
    | Some b =>
        obind (py_contains "data" b) (λ has_data,
          if has_data
          then obind (py_getitem b "data") (λ data, decode_body W data)
          else Ok "")
    end.
Proof.
  intros Hp Hparts. unfold extract_body. simpl. rewrite Hp. simpl.
  rewrite Hparts. simpl.
  destruct (p !! "body") as [b|] eqn:Hb; simpl; [| reflexivity].
  rewrite (payload_present m p "body" Hp) by (by rewrite Hb). simpl.
  rewrite Hb. simpl. reflexivity.
Qed.




(** ** C3: what the package exports *)






(** * Beyond the claims

    Properties of the same code that its specification does not state,
    and of the two functions it does not mention at all:
    [test_github_connection] and [setup_oauth]. *)

#[local] Set Warnings "-clear-no-such-hyp".

(** Unfolds the monad of the basic-auth functions. *)
Ltac eexec := cbv [ebind eret elift effect_of etry].

(** ** The Gmail credential loader *)

(** X1: whatever the world answers, [get_gmail_service] does one of five
    things to the outside: nothing, a refresh, a refresh and a write of the
    token file, a consent flow, or a consent flow and a write.  It never
    runs both the refresh and the consent flow, and never writes the token
    file without one of them before. *)
Theorem loader_effects (W : World) (t0 : trace) :
  ∃ evs, evs ∈ loader_traces ∧ (get_gmail_service W t0).2 = t0 ++ evs.
Proof.
  unfold get_gmail_service, login, save_and_build, loader_traces. exec.
  repeat answer; simpl; rewrite <- ?app_assoc; simpl;
    first [ by (exists []; split; [set_solver | by rewrite app_nil_r])
          | by (eexists; split; [| reflexivity]; set_solver) ].
Qed.

(** X2: a stored token that is valid is used as it is: the service is
    built from it, nothing is refreshed, no consent is asked, and the token
    file is not rewritten. *)
Theorem valid_token_used_as_is (W : World) (t0 : trace) (c : creds) :
  gmail_token_exists W = true → gmail_token_load W = Ok c → valid c = true →
  get_gmail_service W t0
  = (match build W c with Ok s => Ok (Some s) | Raise e => Raise e end, t0).
Proof.
  intros He Hl Hv. unfold get_gmail_service. exec.
  known He; known Hl; known Hv. by destruct (build W c).
Qed.

Lemma valid_token_used_as_is_witness :
  get_gmail_service mock [] = (Ok (Some (Resource mock_creds)), []).
Proof. apply (valid_token_used_as_is mock [] mock_creds); reflexivity. Defined.

(** X3: an expired token with a refresh token is refreshed, saved, and the
    service is built from the refreshed credentials, without the consent
    flow; when the refresh raises, the exception leaves
    [get_gmail_service] and the consent flow is not tried in its place,
    even though credentials.json is there. *)
Theorem refresh_without_consent (W : World) (t0 : trace) (c : creds) :
  gmail_token_exists W = true → gmail_token_load W = Ok c →
  valid c = false → expired c = true → truthy (refresh_token c) = true →
  (∀ c' s, creds_refresh W c = Ok c' → gmail_token_save W c' = Ok tt →
           build W c' = Ok s →
           get_gmail_service W t0 = (Ok (Some s), t0 ++ [TokenRefresh; TokenWrite]))
  ∧ (∀ e, creds_refresh W c = Raise e →
          get_gmail_service W t0 = (Raise e, t0 ++ [TokenRefresh])).
Proof.
  intros He Hl Hv Hx Hr. split.
  - intros c' s Hc' Hs Hb. unfold get_gmail_service, save_and_build. exec.
    known He; known Hl; known Hv; known Hx; known Hr; known Hc'; known Hs; known Hb.
    simpl. by rewrite <- app_assoc.
  - intros e Hc'. unfold get_gmail_service, save_and_build. exec.
    known He; known Hl; known Hv; known Hx; known Hr; known Hc'. reflexivity.
Qed.

Lemma refresh_without_consent_witness :
  get_gmail_service (mock_expired (Ok mock_creds)) []
  = (Ok (Some (Resource mock_creds)), [TokenRefresh; TokenWrite])
  ∧ get_gmail_service (mock_expired (Raise (Exception "invalid_grant"))) []
    = (Raise (Exception "invalid_grant"), [TokenRefresh]).
Proof.
  split.
  - destruct (refresh_without_consent (mock_expired (Ok mock_creds)) [] expired_creds
                eq_refl eq_refl eq_refl eq_refl eq_refl) as [H _].
    apply (H mock_creds (Resource mock_creds)); reflexivity.
  - destruct (refresh_without_consent
                (mock_expired (Raise (Exception "invalid_grant"))) [] expired_creds
                eq_refl eq_refl eq_refl eq_refl eq_refl) as [_ H].
    apply (H (Exception "invalid_grant")). reflexivity.
Defined.

Lemma login_none (W : World) (t : trace) :
  (login W t).1 = Ok None ↔ credentials_exists W = false.
Proof.
  unfold login, save_and_build. exec.
  destruct (credentials_exists W); simpl; [| done].
  split; [| done]. repeat answer; simpl; discriminate.
Qed.

(** X4: [get_gmail_service] returns None exactly when credentials.json is
    missing and there is no token that is valid or can be refreshed; in
    every other case it returns a service or raises. *)
Theorem no_service_iff (W : World) (t0 : trace) :
  (get_gmail_service W t0).1 = Ok None
  ↔ credentials_exists W = false ∧ no_usable_token W.
Proof.
  unfold no_usable_token, get_gmail_service. exec.
  destruct (gmail_token_exists W) eqn:He; simpl.
  - destruct (gmail_token_load W) as [c|e] eqn:Hl; simpl.
    + destruct (valid c) eqn:Hv; simpl.
      * split.
        -- destruct (build W c); simpl; discriminate.
        -- intros [_ [? | (c' & _ & [= <-] & ? & _)]]; congruence.
      * destruct (expired c && truthy (refresh_token c)) eqn:Hr.
        -- split.
           ++ unfold save_and_build. exec. repeat answer; simpl; discriminate.
           ++ intros [_ [? | (c' & _ & [= <-] & _ & ?)]]; congruence.
        -- rewrite login_none. split.
           ++ intros Hc. split; [done |]. right. by exists c.
           ++ by intros [Hc _].
    + split; [discriminate |].
      intros [_ [? | (c' & _ & ? & _)]]; congruence.
  - rewrite login_none. split; [intros Hc; split; [done | by left] | by intros [Hc _]].
Qed.

Lemma no_service_iff_witness :
  (get_gmail_service mock_unauthenticated []).1 = Ok None.
Proof.
  apply (no_service_iff mock_unauthenticated []). split; [reflexivity |].
  left. reflexivity.
Defined.

(** ** The GitHub credentials *)


(** X6: a token file that cannot be read counts as a missing one: when the
    file is absent, or reading or parsing it raises an [Exception], or it
    holds JSON that is no object, [get_github_auth] returns (None, None)
    and [get_github_headers] None. *)
Theorem unreadable_token_file (W : World) :
  github_token_exists W = false
  ∨ (∃ s, github_token_load W = Raise (Exception s))
  ∨ (∃ v, github_token_load W = Ok v ∧ ∀ d, v ≠ VDict d) →
  get_github_auth W = Ok (VNone, VNone) ∧ get_github_headers W = Ok VNone.
Proof.
  unfold get_github_headers, get_github_auth.
  intros [He | [[s Hl] | (v & Hl & Hv)]].
  - by rewrite He.
  - destruct (github_token_exists W); [| done]. by rewrite Hl.
  - destruct (github_token_exists W); [| done]. rewrite Hl.
    destruct v as [| | | | |d]; try done. by destruct (Hv d).
Qed.

Lemma unreadable_token_file_witness :
  get_github_auth (mock_token_file (VList [VStr "octocat"; VStr "ghp_token"]))
  = Ok (VNone, VNone)
  ∧ get_github_headers (mock_token_file (VList [VStr "octocat"; VStr "ghp_token"]))
    = Ok VNone.
Proof.
  apply unreadable_token_file. right; right.
  exists (VList [VStr "octocat"; VStr "ghp_token"]). split; [reflexivity | discriminate].
Defined.

(** ** setup_oauth *)

(** Settles the case in which GitHub did not accept the credentials:
    nothing is written and the result is not True. *)
Ltac open_accepted :=
  intros;
  repeat match goal with
         | H : ∃ _, _ |- _ => destruct H
         | H : _ ∧ _ |- _ => destruct H
         end;
  simplify_eq; congruence.

Ltac three_ways :=
  first [ by left
        | by (right; left)
        | by (right; right; eexists; split; [reflexivity | exact I]) ].

Ltac refused_setup :=
  (split; [by left |]);
  (split; [split; [by intros Hin | open_accepted] |]);
  (split; [split; [discriminate | open_accepted] | three_ways]).

(** X7: [setup_oauth] sends one request, with the username and token
    typed in as basic credentials.  It writes the credentials file exactly
    when GitHub answers 200 with JSON that carries a login, and what it
    writes is the pair typed in; it returns True exactly when, moreover,
    the write succeeds.  Otherwise it returns False, and no [Exception]
    leaves it. *)
Theorem setup_oauth_saves (G : Setup) (username token : string) :
  let c := user_request (VStr username) (VStr token) in
  let saved := WriteCredentials (saved_credentials username token) in
  let r := setup_oauth G username token [] in
  (r.2 = [BasicGet c] ∨ r.2 = [BasicGet c; saved])
  ∧ (saved ∈ r.2 ↔ accepted G c)
  ∧ (r.1 = Ok true
     ↔ accepted G c ∧ credentials_write G (saved_credentials username token) = Ok tt)
  ∧ (r.1 = Ok true ∨ r.1 = Ok false ∨ ∃ e, r.1 = Raise e ∧ base_exception e).
Proof.
  intros c saved r. subst r. unfold accepted, setup_oauth. eexec. fold c saved.
  assert (Hno : saved ∉ [BasicGet c]).
  { intros Hin. apply list_elem_of_singleton in Hin. discriminate. }
  assert (Hyes : saved ∈ [BasicGet c; saved]) by set_solver.
  destruct (user_get G c) as [resp|e] eqn:Hget; simpl.
  - destruct (status_code resp =? 200)%Z eqn:Hs; simpl.
    + apply Z.eqb_eq in Hs.
      destruct (json resp) as [j|e] eqn:Hj; simpl.
      * destruct (py_getitem j "login") as [login|e] eqn:Hl; simpl.
        -- assert (Hacc : ∃ r j0 login0, Ok resp = Ok r ∧ status_code r = 200%Z
                            ∧ json r = Ok j0 ∧ py_getitem j0 "login" = Ok login0)
             by (by exists resp, j, login).
           destruct (credentials_write G (saved_credentials username token))
             as [[]|e] eqn:Hw; simpl; [| destruct e; simpl];
             (split; [by right |]); (split; [by split |]);
             (split; [split; [done || discriminate | by intros [_ ?]] | three_ways]).
        -- destruct e; simpl; refused_setup.
      * destruct e; simpl; refused_setup.
    + apply Z.eqb_neq in Hs. refused_setup.
  - destruct e; simpl; refused_setup.
Qed.

Lemma setup_oauth_saves_witness :
  (setup_oauth (mock_setup 200 (Ok (dict [("login", VStr "octocat")])))
     "octocat" "ghp_token" []).1 = Ok true.
Proof.
  destruct (setup_oauth_saves (mock_setup 200 (Ok (dict [("login", VStr "octocat")])))
              "octocat" "ghp_token") as (_ & _ & H & _).
  apply H. split; [| reflexivity].
  eexists _, _, _. repeat split; reflexivity.
Defined.

(** X8: what [setup_oauth] saves is what the tools load.  With the saved
    credentials in the token file, [get_github_headers] returns the
    Authorization header "token " followed by the token typed in; unless
    the username or the token typed in was empty, in which case it returns
    None and every GitHub tool reports an authentication failure. *)
Theorem saved_credentials_load (W : World) (username token : string) :
  github_token_exists W = true →
  github_token_load W = Ok (saved_credentials username token) →
  get_github_headers W
  = if String.eqb username "" || String.eqb token "" then Ok VNone
    else Ok (dict [("Accept", VStr "application/vnd.github.v3+json");
                   ("Authorization", VStr ("token " +:+ token))]).
Proof.
  intros He Hl. unfold get_github_headers, get_github_auth. rewrite He, Hl.
  unfold saved_credentials, dict. cbn [list_to_map foldr uncurry fst snd].
  cbn [otry obind py_get].
  rewrite lookup_insert_eq, lookup_insert_ne, lookup_insert_eq by discriminate.
  simpl. by destruct (String.eqb username ""), (String.eqb token "").
Qed.

Lemma saved_credentials_load_witness :
  get_github_headers (mock_token_file (saved_credentials "octocat" "ghp_token"))
  = Ok (dict [("Accept", VStr "application/vnd.github.v3+json");
              ("Authorization", VStr "token ghp_token")])
  ∧ get_github_headers (mock_token_file (saved_credentials "octocat" "")) = Ok VNone.
Proof.
  split.
  - apply (saved_credentials_load
             (mock_token_file (saved_credentials "octocat" "ghp_token"))
             "octocat" "ghp_token"); reflexivity.
  - apply (saved_credentials_load
             (mock_token_file (saved_credentials "octocat" "")) "octocat" "");
      reflexivity.
Defined.

(** ** test_github_connection *)

(** [get_github_auth] has a handler of its own: no [Exception] leaves it. *)
Lemma get_github_auth_no_exception (W : World) s :
  get_github_auth W ≠ Raise (Exception s).
Proof.
  unfold get_github_auth.
  destruct (github_token_exists W); [| done].
  destruct (github_token_load W) as [v|[s'| |]]; simpl; try done.
  destruct v; simpl; done.
Qed.

(** X9: [test_github_connection] returns a status/message dictionary or
    lets through an exception that is no [Exception], although the
    credentials are read outside its [try].  It sends at most one request,
    and none at all when the username or the token is missing: then it
    returns the "credentials not found" error. *)
Theorem test_github_connection_contract (W : World) (G : Setup) :
  let r := test_github_connection W G [] in
  match r.1 with
  | Ok d => status_message d
  | Raise e => base_exception e
  end
  ∧ (r.2 = [] ∨ ∃ username token,
       get_github_auth W = Ok (username, token)
       ∧ truthy username = true ∧ truthy token = true
       ∧ r.2 = [BasicGet (user_request username token)])
  ∧ (∀ username token,
       get_github_auth W = Ok (username, token) →
       truthy username = false ∨ truthy token = false →
       r = (Ok (dict [("status", VStr "error");
                      ("message",
                       VStr "GitHub credentials not found. Please run setup_github_auth.py.")]),
            [])).
Proof.
  intros r. subst r. unfold test_github_connection. eexec.
  pose proof (get_github_auth_no_exception W) as Hauth.
  destruct (get_github_auth W) as [[username token]|[s| |]]; simpl;
    [| by destruct (Hauth s) | by repeat split; auto | by repeat split; auto].
  destruct (truthy username) eqn:Hu, (truthy token) eqn:Ht; simpl;
    try (split; [status_message_dict | split; [by left | by intros ? ? [= <- <-]]]).
  split; [| split].
  - repeat answer; simpl; try status_message_dict; exact I.
  - right. exists username, token. repeat split; try done.
    repeat answer; reflexivity.
  - intros ? ? [= <- <-] [? | ?]; congruence.
Qed.

Lemma test_github_connection_contract_witness :
  test_github_connection mock_unauthenticated
    (mock_setup 200 (Ok (dict [("login", VStr "octocat")]))) []
  = (Ok (dict [("status", VStr "error");
               ("message",
                VStr "GitHub credentials not found. Please run setup_github_auth.py.")]),
     []).
Proof.
  destruct (test_github_connection_contract mock_unauthenticated
              (mock_setup 200 (Ok (dict [("login", VStr "octocat")]))))
    as (_ & _ & H).
  apply (H VNone VNone); [reflexivity | by left].
Defined.

(** X10: [test_github_connection] reports success exactly when the
    credentials are there and GitHub answers 200 with JSON that carries a
    login; the dictionary then holds that JSON under "user" and names the
    login in its message. *)
Theorem test_github_connection_success (W : World) (G : Setup) :
  let r := test_github_connection W G [] in
  (∃ d, r.1 = Ok d ∧ field d "status" = Some (VStr "success"))
  ↔ ∃ username token resp j login,
      get_github_auth W = Ok (username, token)
      ∧ truthy username = true ∧ truthy token = true
      ∧ user_get G (user_request username token) = Ok resp
      ∧ status_code resp = 200%Z ∧ json resp = Ok j
      ∧ py_getitem j "login" = Ok login
      ∧ r = (Ok (dict [("status", VStr "success");
                       ("message",
                        VStr ("Connected to GitHub as " +:+ py_str (py_repr W) login));
                       ("user", j)]),
             [BasicGet (user_request username token)]).
Proof.
  intros r. split.
  - subst r. unfold test_github_connection. eexec.
    destruct (get_github_auth W) as [[username token]|e] eqn:Ha; simpl;
      [| by intros (d & ? & _)].
    destruct (truthy username) eqn:Hu, (truthy token) eqn:Ht; simpl;
      try (intros (d & [= <-] & Hd); revert Hd; fields; discriminate).
    destruct (user_get G (user_request username token)) as [resp|e] eqn:Hg; simpl.
    + destruct (status_code resp =? 200)%Z eqn:Hs; simpl.
      * apply Z.eqb_eq in Hs.
        destruct (json resp) as [j|e] eqn:Hj; simpl.
        -- destruct (py_getitem j "login") as [login|e] eqn:Hl; simpl.
           ++ intros _. by exists username, token, resp, j, login.
           ++ destruct e; simpl; intros (d & [= <-] & Hd);
                revert Hd; fields; discriminate.
        -- destruct e; simpl; intros (d & [= <-] & Hd);
             revert Hd; fields; discriminate.
      * intros (d & [= <-] & Hd); revert Hd; fields; discriminate.
    + destruct e; simpl; intros (d & [= <-] & Hd); revert Hd; fields; discriminate.
  - intros (username & token & resp & j & login & _ & _ & _ & _ & _ & _ & _ & ->).
    eexists. split; [reflexivity |]. by fields.
Qed.

Lemma test_github_connection_success_witness :
  ∃ d, (test_github_connection
          (mock_token_file (saved_credentials "octocat" "ghp_token"))
          (mock_setup 200 (Ok (dict [("login", VStr "octocat")]))) []).1 = Ok d
       ∧ field d "message" = Some (VStr "Connected to GitHub as octocat").
Proof.
  destruct (test_github_connection_success
              (mock_token_file (saved_credentials "octocat" "ghp_token"))
              (mock_setup 200 (Ok (dict [("login", VStr "octocat")])))) as [H _].
  destruct H as (u & t & resp & j & login & Ha & _ & _ & Hg & _ & Hj & Hl & Hr).
  - eexists. split; [reflexivity |]. reflexivity.
  - injection Ha as <- <-. injection Hg as <-. injection Hj as <-.
    injection Hl as <-. rewrite Hr. eexists. split; [reflexivity |]. reflexivity.
Defined.

(** ** send_email *)

(** X11: [send_email] sends in the name of the address the profile request
    returned (None when the profile has none), with the MIME bytes in
    URL-safe base64 under "raw".  Once the send request is answered the
    email is out; the function then returns the id of the sent message,
    but when the answer carries no "id" it returns an error dictionary,
    for an email that was sent. *)
Theorem send_email_flow (W : World) (to subject body : string) (is_html : bool)
    (s : service) (t0 : trace) (profile : gmap string value) (raw : string)
    (sent : value) :
  let sender := default VNone (profile !! "emailAddress") in
  let message := dict [("raw", VStr (urlsafe_b64encode raw))] in
  let r := run (send_email W to subject body is_html) in
  get_gmail_service W [] = (Ok (Some s), t0) →
  execute W s t0 (getProfile "me") = Ok (VDict profile) →
  mime_as_bytes W sender to subject body is_html = inl raw →
  execute W s (t0 ++ [Gmail (getProfile "me")]) (messages_send "me" message) = Ok sent →
  r.2 = t0 ++ [Gmail (getProfile "me"); Gmail (messages_send "me" message)]
  ∧ (∀ id, py_getitem sent "id" = Ok id →
       r.1 = Ok (dict [("status", VStr "success");
                       ("message", VStr "Email sent successfully");
                       ("message_id", id)]))
  ∧ (∀ e, py_getitem sent "id" = Raise (Exception e) →
       r.1 = Ok (dict [("status", VStr "error");
                       ("message", VStr ("Error sending email: " +:+ e))])).
Proof.
  intros sender message r Hauth Hprofile Hmime Hsend. subst r.
  unfold send_email, create_message. exec.
  known Hauth; known Hprofile. cbn [py_get]. fold sender.
  rewrite Hmime. cbn [raising obind]. fold message. known Hsend.
  rewrite <- app_assoc.
  destruct (py_getitem sent "id") as [id|[e| |]]; simpl;
    (split; [reflexivity |]); split; intros ? [=]; by subst.
Qed.

Lemma send_email_flow_witness :
  let message :=
    dict [("raw", VStr (urlsafe_b64encode "to: bob@example.com subject: Hi hello"))] in
  run (send_email mock "bob@example.com" "Hi" "hello" false)
  = (Ok (dict [("status", VStr "success");
               ("message", VStr "Email sent successfully");
               ("message_id", VStr "sent1")]),
     [Gmail (getProfile "me"); Gmail (messages_send "me" message)])
  ∧ run (send_email mock_gone "bob@example.com" "Hi" "hello" false)
    = (Ok (dict [("status", VStr "error");
                 ("message", VStr "Error sending email: 'id'")]),
       [Gmail (getProfile "me"); Gmail (messages_send "me" message)]).
Proof.
  intros message.
  pose (profile := list_to_map [("emailAddress", VStr "me@example.com")]
                   : gmap string value).
  split.
  - destruct (send_email_flow mock "bob@example.com" "Hi" "hello" false
                (Resource mock_creds) [] profile
                "to: bob@example.com subject: Hi hello"
                (dict [("id", VStr "sent1"); ("labelIds", VList [VStr "SENT"])])
                eq_refl eq_refl eq_refl eq_refl) as (Ht & Hok & _).
    specialize (Hok (VStr "sent1") eq_refl).
    destruct (run (send_email mock "bob@example.com" "Hi" "hello" false)) as [r t].
    simpl in Ht, Hok. by rewrite Ht, Hok.
  - destruct (send_email_flow mock_gone "bob@example.com" "Hi" "hello" false
                (Resource mock_creds) [] profile
                "to: bob@example.com subject: Hi hello"
                (dict [("labelIds", VList [VStr "SENT"])])
                eq_refl eq_refl eq_refl eq_refl) as (Ht & _ & Herr).
    specialize (Herr "'id'" eq_refl).
    destruct (run (send_email mock_gone "bob@example.com" "Hi" "hello" false)) as [r t].
    simpl in Ht, Herr. by rewrite Ht, Herr.
Defined.

(** ** list_emails *)

(** The fetch loop stops at the first entry whose fetch or formatting
    raises, and the exception leaves the loop. *)
Lemma fetch_emails_fails (W : World) (s : service) pre msg post ids emails acc t id e :
  fetched W s t pre ids emails →
  py_getitem msg "id" = Ok id →
  (execute W s (t ++ (get_event <$> ids)) (messages_get "me" id "full") = Raise e
   ∨ ∃ message,
       execute W s (t ++ (get_event <$> ids)) (messages_get "me" id "full") = Ok message
       ∧ format_message W message = Raise e) →
  fetch_emails W s (pre ++ msg :: post) acc t
  = (Raise e, t ++ (get_event <$> ids) ++ [get_event id]).
Proof.
  intros H. revert acc.
  induction H as [t | t msg' rest id' message email ids emails Hid Hget Hfmt _ IH];
    intros acc Hmsg Hfail; simpl.
  - simpl in Hfail. rewrite app_nil_r in Hfail. exec. known Hmsg.
    destruct Hfail as [Hfail | (message & Hget & Hfmt)].
    + by known Hfail.
    + known Hget. by known Hfmt.
  - exec. known Hid; known Hget; known Hfmt.
    change (fetch_emails W s (rest ++ msg :: post) (acc ++ [email]) (t ++ [get_event id'])
            = (Raise e, t ++ (get_event id' :: (get_event <$> ids)) ++ [get_event id])).
    rewrite IH; [by rewrite <- !app_assoc | done |].
    simpl in Hfail. by rewrite <- app_assoc.
Qed.

(** X12: [list_emails] is all or nothing.  When the fetch of a listed
    message raises an [Exception], or its answer cannot be formatted, the
    emails fetched and formatted before it are dropped: the function
    returns status "error" with an empty list, and no later message is
    fetched. *)
Theorem list_emails_all_or_nothing (W : World) (max_results : Z) (query label : string)
    (s : service) (t0 : trace) (results : value) pre msg post ids emails id e :
  let list_call := messages_list "me" (search_query query label) max_results in
  let t1 := t0 ++ [Gmail list_call] in
  get_gmail_service W [] = (Ok (Some s), t0) →
  execute W s t0 list_call = Ok results →
  py_get results "messages" (VList []) = Ok (VList (pre ++ msg :: post)) →
  fetched W s t1 pre ids emails →
  py_getitem msg "id" = Ok id →
  (execute W s (t1 ++ (get_event <$> ids)) (messages_get "me" id "full")
   = Raise (Exception e)
   ∨ ∃ message,
       execute W s (t1 ++ (get_event <$> ids)) (messages_get "me" id "full") = Ok message
       ∧ format_message W message = Raise (Exception e)) →
  run (list_emails W max_results query label)
  = (Ok (dict [("status", VStr "error");
               ("message", VStr ("Error listing emails: " +:+ e));
               ("emails", VList [])]),
     t1 ++ (get_event <$> ids) ++ [get_event id]).
Proof.
  intros list_call t1 Hauth Hlist Hmessages Hfetched Hid Hfail.
  unfold list_emails. exec.
  known Hauth. fold list_call. known Hlist; known Hmessages.
  assert (Ht : truthy (VList (pre ++ msg :: post)) = true) by (by destruct pre).
  known Ht. cbn [py_iter]. fold t1.
  by rewrite (fetch_emails_fails W s pre msg post ids emails [] t1 id (Exception e)).
Qed.

Lemma list_emails_all_or_nothing_witness :
  run (list_emails mock_gone 10 "" "INBOX")
  = (Ok (dict [("status", VStr "error");
               ("message", VStr "Error listing emails: <HttpError 404: Not Found>");
               ("emails", VList [])]),
     [Gmail (messages_list "me" "label:INBOX" 10);
      get_event (VStr "m1"); get_event (VStr "m2")]).
Proof.
  destruct (format_message mock_gone message_m1) as [email1|] eqn:H1; [| discriminate].
  pose (entry1 := dict [("id", VStr "m1"); ("threadId", VStr "t1")]).
  pose (entry2 := dict [("id", VStr "m2"); ("threadId", VStr "t2")]).
  apply (list_emails_all_or_nothing mock_gone 10 "" "INBOX" (Resource mock_creds) []
           (dict [("messages", VList [entry1; entry2]); ("resultSizeEstimate", VInt 2)])
           [entry1] entry2 [] [VStr "m1"] [email1] (VStr "m2")
           "<HttpError 404: Not Found>");
    try reflexivity.
  - eapply fetched_cons; [reflexivity | reflexivity | exact H1 | apply fetched_nil].
  - left. reflexivity.
Defined.

(** ** format_message and read_email *)

Lemma collect_headers_fails (l l' : list value) (hs : list (string * value))
    (x : value) (acc : gmap string value) (e : exn) :
  Forall2 is_header l hs →
  (py_getitem x "value" = Raise e
   ∨ ∃ v, py_getitem x "value" = Ok v ∧ py_getitem x "name" = Raise e) →
  collect_headers (l ++ x :: l') acc = Raise e.
Proof.
  intros Hhs. revert acc.
  induction Hhs as [|y [n v] l hs [Hn Hv] _ IH]; intros acc Hx; simpl.
  - destruct Hx as [Hx | (v & Hv & Hx)].
    + by rewrite Hx.
    + rewrite Hv. simpl. by rewrite Hx.
  - simpl in Hn, Hv. rewrite Hv. simpl. rewrite Hn. simpl. by apply IH.
Qed.

(** X13: the marker "[Could not decode message body]" covers the body
    only.  A header without a value, or with a value and without a name,
    makes [format_message] itself raise, the header loop running before
    the [try]; [read_email] then returns an error dictionary and no
    email, although the message was fetched. *)
Theorem format_message_malformed_header (W : World) (m p : gmap string value)
    (l l' : list value) (hs : list (string * value)) (x : value) (e : string) :
  default (dict []) (m !! "payload") = VDict p →
  p !! "headers" = Some (VList (l ++ x :: l')) →
  Forall2 is_header l hs →
  py_getitem x "value" = Raise (Exception e)
  ∨ (∃ v, py_getitem x "value" = Ok v ∧ py_getitem x "name" = Raise (Exception e)) →
  format_message W (VDict m) = Raise (Exception e)
  ∧ (∀ email_id s t0,
       get_gmail_service W [] = (Ok (Some s), t0) →
       execute W s t0 (messages_get "me" (VStr email_id) "full") = Ok (VDict m) →
       run (read_email W email_id)
       = (Ok (dict [("status", VStr "error");
                    ("message", VStr ("Error reading email: " +:+ e))]),
          t0 ++ [get_event (VStr email_id)])).
Proof.
  intros Hp Hh Hhs Hx.
  assert (Hfmt : format_message W (VDict m) = Raise (Exception e)).
  { unfold format_message; simpl; rewrite Hp; simpl; rewrite Hh; simpl.
    by rewrite (collect_headers_fails l l' hs x ∅ (Exception e)). }
  split; [exact Hfmt |].
  intros email_id s t0 Hauth Hget. unfold read_email. exec.
  known Hauth; known Hget. by known Hfmt.
Qed.

Lemma format_message_malformed_header_witness :
  format_message mock message_nameless_header = Raise (Exception "'name'").
Proof.
  pose (good := dict [("name", VStr "From"); ("value", VStr "erin@example.com")]).
  pose (bad := dict [("value", VStr "orphan")]).
  pose (p := list_to_map [("headers", VList [good; bad])] : gmap string value).
  pose (m := list_to_map [("id", VStr "m4"); ("payload", VDict p)] : gmap string value).
  destruct (format_message_malformed_header mock m p [good] []
              [("From", VStr "erin@example.com")] bad "'name'" eq_refl eq_refl)
    as [H _]; [| | exact H].
  - repeat constructor.
  - right. exists (VStr "orphan"). split; reflexivity.
Defined.

Lemma collect_headers_case (l l' : list value) (acc : gmap string value) :
  Forall2 same_header l l' → collect_headers l acc = collect_headers l' acc.
Proof.
  intros H. revert acc.
  induction H as [|x y l l' (n & n' & v & [Hn Hv] & [Hn' Hv'] & Hlow) _ IH];
    intros acc; simpl; [done |].
  simpl in *. rewrite Hv, Hv'. simpl. rewrite Hn, Hn'. simpl. rewrite Hlow. apply IH.
Qed.

(** The body depends on the payload through its "parts" and "body" only. *)
Lemma extract_body_payload (W : World) (m m' p p' : gmap string value) :
  default (dict []) (m !! "payload") = VDict p →
  default (dict []) (m' !! "payload") = VDict p' →
  p !! "parts" = p' !! "parts" → p !! "body" = p' !! "body" →
  extract_body W (VDict m) = extract_body W (VDict m').
Proof.
  intros Hp Hp' Hparts Hbody.
  destruct (p !! "parts") as [parts|] eqn:H.
  - rewrite (extract_body_parts W m p parts Hp H).
    by rewrite (extract_body_parts W m' p' parts Hp').
  - rewrite (extract_body_no_parts W m p Hp H).
    rewrite (extract_body_no_parts W m' p' Hp') by done. by rewrite Hbody.
Qed.

(** X14: the case of the header names does not matter to
    [format_message]: replacing the headers of a message by headers with
    the same values, in the same order, whose names differ in case only,
    leaves the whole result unchanged. *)
Theorem format_message_case_insensitive (W : World) (m p : gmap string value)
    (l l' : list value) :
  m !! "payload" = Some (VDict p) →
  p !! "headers" = Some (VList l) →
  Forall2 same_header l l' →
  format_message W (VDict (<["payload" := VDict (<["headers" := VList l']> p)]> m))
  = format_message W (VDict m).
Proof.
  intros Hp Hh Hl.
  set (p' := <["headers" := VList l']> p).
  set (m' := <["payload" := VDict p']> m).
  assert (Hp1 : default (dict []) (m !! "payload") = VDict p) by (by rewrite Hp).
  assert (Hp2 : default (dict []) (m' !! "payload") = VDict p').
  { subst m'. by rewrite lookup_insert_eq. }
  assert (Hb : extract_body W (VDict m') = extract_body W (VDict m)).
  { apply (extract_body_payload W m' m p' p Hp2 Hp1); subst p';
      by rewrite lookup_insert_ne. }
  unfold format_message. cbn [py_get obind]. rewrite Hp1, Hp2. cbn [py_get obind].
  subst p'. rewrite lookup_insert_eq, Hh. cbn [default from_option id py_iter obind].
  rewrite (collect_headers_case l l' ∅ Hl). rewrite Hb.
  subst m'. by rewrite !lookup_insert_ne by discriminate.
Qed.

Lemma format_message_case_insensitive_witness :
  let upper := [dict [("name", VStr "FROM"); ("value", VStr "carol@example.com")]] in
  let p := list_to_map [("headers", VList [dict [("name", VStr "From");
                                                 ("value", VStr "carol@example.com")]]);
                        ("body", dict [("data", VStr "aGk=")])] : gmap string value in
  let m := list_to_map [("id", VStr "m2"); ("threadId", VStr "t2");
                        ("snippet", VStr "hi"); ("payload", VDict p)]
           : gmap string value in
  format_message mock
    (VDict (<["payload" := VDict (<["headers" := VList upper]> p)]> m))
  = format_message mock message_m2.
Proof.
  intros upper p m.
  apply (format_message_case_insensitive mock m p
           [dict [("name", VStr "From"); ("value", VStr "carol@example.com")]] upper);
    try reflexivity.
  repeat constructor.
  exists "From", "FROM", (VStr "carol@example.com"). repeat split.
Defined.

(** ** The GitHub tools *)

Lemma keys_summary (fields : list (string * string)) (d : gmap string value) :
  keys (summary fields d) = list_to_set fields.*1.
Proof.
  unfold keys, summary, dict. rewrite dom_list_to_map_L. f_equal.
  rewrite <- list_fmap_compose. by apply list_fmap_ext.
Qed.

Lemma format_repo_summary (v : value) :
  format_repo v = match summary_of repo_fields v with
                  | Some s => Ok s
                  | None => Raise (AttributeError v "get")
                  end.
Proof. by destruct v. Qed.

Lemma format_item_summary (v : value) :
  format_item v = match summary_of item_fields v with
                  | Some s => Ok s
                  | None => Raise (AttributeError v "get")
                  end.
Proof. by destruct v. Qed.

Lemma format_repos_summaries (l rs acc : list value) :
  Forall2 (λ v s, summary_of repo_fields v = Some s) l rs →
  format_repos l acc = Ok (acc ++ rs).
Proof.
  intros H. revert acc. induction H as [|v s l rs Hv _ IH]; intros acc; simpl.
  - by rewrite app_nil_r.
  - rewrite format_repo_summary, Hv. simpl. rewrite IH. by rewrite <- app_assoc.
Qed.

Lemma format_items_summaries (l rs acc : list value) :
  Forall2 (λ v s, summary_of item_fields v = Some s) l rs →
  format_items l acc = Ok (acc ++ rs).
Proof.
  intros H. revert acc. induction H as [|v s l rs Hv _ IH]; intros acc; simpl.
  - by rewrite app_nil_r.
  - rewrite format_item_summary, Hv. simpl. rewrite IH. by rewrite <- app_assoc.
Qed.

Lemma format_repos_fails (l l' : list value) (v : value) (acc : list value) :
  Forall (λ x, is_Some (summary_of repo_fields x)) l →
  summary_of repo_fields v = None →
  format_repos (l ++ v :: l') acc = Raise (AttributeError v "get").
Proof.
  intros Hl Hv. revert acc.
  induction Hl as [|x l [s Hx] _ IH]; intros acc; simpl.
  - by rewrite format_repo_summary, Hv.
  - rewrite format_repo_summary, Hx. simpl. apply IH.
Qed.

Lemma summaries_keys (fields : list (string * string)) (l rs : list value) :
  Forall2 (λ v s, summary_of fields v = Some s) l rs →
  Forall (λ s, keys s = list_to_set fields.*1) rs.
Proof.
  induction 1 as [|v s l rs Hv _ IH]; constructor; [| done].
  destruct v; try discriminate. injection Hv as <-. apply keys_summary.
Qed.

(** X15: [list_repositories] keeps the order and the number of the
    repositories GitHub lists, and reshapes each into a dictionary with
    exactly the keys id, name, full_name, description, url, private,
    created_at, updated_at and language, "url" being GitHub's html_url and
    a field GitHub left out being None; the message counts them.  An empty
    answer gives "No repositories found.".  An entry that is no JSON
    object turns the whole answer into an error with an empty list. *)
Theorem list_repositories_reshapes (W : World) (h : value) (r : response) (repos : value) :
  let get_call := requests_get "https://api.github.com/user/repos" h in
  get_github_headers W = Ok h → truthy h = true →
  requests W [] get_call = Ok r → status_code r = 200%Z → json r = Ok repos →
  (truthy repos = false →
   run (list_repositories W)
   = (Ok (dict [("status", VStr "success");
                ("message", VStr "No repositories found.");
                ("repositories", VList [])]), [Http get_call]))
  ∧ (∀ l rs,
       repos = VList l → l ≠ [] →
       Forall2 (λ v s, summary_of repo_fields v = Some s) l rs →
       run (list_repositories W)
       = (Ok (dict [("status", VStr "success");
                    ("message", VStr ("Found " +:+ pretty (length l) +:+ " repositories."));
                    ("repositories", VList rs)]), [Http get_call])
       ∧ Forall (λ s, keys s = list_to_set repo_fields.*1) rs)
  ∧ (∀ l v l',
       repos = VList (l ++ v :: l') →
       Forall (λ x, is_Some (summary_of repo_fields x)) l →
       summary_of repo_fields v = None →
       run (list_repositories W)
       = (Ok (dict [("status", VStr "error");
                    ("message", VStr ("Error listing repositories: '" +:+ type_name v
                                      +:+ "' object has no attribute 'get'"));
                    ("repositories", VList [])]), [Http get_call])).
Proof.
  intros get_call Hh Ht Hget Hs Hj. apply Z.eqb_eq in Hs.
  split; [| split].
  - intros Hr. unfold list_repositories. exec.
    known Hh; known Ht. fold get_call. by known Hget; known Hs; known Hj; known Hr.
  - intros l rs -> Hl Hrs. split; [| by eapply summaries_keys].
    unfold list_repositories. exec.
    known Hh; known Ht. fold get_call. known Hget; known Hs; known Hj.
    assert (Htr : truthy (VList l) = true) by (by destruct l).
    known Htr. cbn [py_iter]. rewrite (format_repos_summaries l rs [] Hrs). simpl.
    by rewrite (Forall2_length _ _ _ Hrs).
  - intros l v l' -> Hl Hv. unfold list_repositories. exec.
    known Hh; known Ht. fold get_call. known Hget; known Hs; known Hj.
    assert (Htr : truthy (VList (l ++ v :: l')) = true) by (by destruct l).
    known Htr. cbn [py_iter].
    by rewrite (format_repos_fails l l' v [] Hl Hv).
Qed.

Lemma list_repositories_reshapes_witness :
  run (list_repositories mock)
  = (Ok (dict [("status", VStr "success");
               ("message", VStr "Found 1 repositories.");
               ("repositories",
                VList [dict [("id", VInt 1); ("name", VStr "jarvis");
                             ("full_name", VStr "octocat/jarvis");
                             ("description", VNone);
                             ("url", VStr "https://github.com/octocat/jarvis");
                             ("private", VBool false);
                             ("created_at", VNone); ("updated_at", VNone);
                             ("language", VNone)]])]),
     [Http (requests_get "https://api.github.com/user/repos"
              (dict [("Accept", VStr "application/vnd.github.v3+json");
                     ("Authorization", VStr "token ghp_token")]))]).
Proof.
  pose (repo := dict [("id", VInt 1); ("name", VStr "jarvis");
                      ("full_name", VStr "octocat/jarvis");
                      ("html_url", VStr "https://github.com/octocat/jarvis");
                      ("private", VBool false)]).
  destruct (list_repositories_reshapes mock
              (dict [("Accept", VStr "application/vnd.github.v3+json");
                     ("Authorization", VStr "token ghp_token")])
              {| status_code := 200; text := "[...]"; json := Ok (VList [repo]) |}
              (VList [repo]) eq_refl eq_refl eq_refl eq_refl eq_refl) as (_ & H & _).
  destruct (H [repo] [dict [("id", VInt 1); ("name", VStr "jarvis");
                            ("full_name", VStr "octocat/jarvis");
                            ("description", VNone);
                            ("url", VStr "https://github.com/octocat/jarvis");
                            ("private", VBool false);
                            ("created_at", VNone); ("updated_at", VNone);
                            ("language", VNone)]] eq_refl) as [Hrun _].
  - discriminate.
  - repeat constructor.
  - exact Hrun.
Defined.

(** X16: [scan_repository] answers a directory with one entry per item
    GitHub lists, in order, and a single file, which GitHub describes by
    one JSON object instead of a list, with a list of exactly one entry;
    each entry has exactly the keys name, path, type, size and url.  An
    empty answer gives "No contents found.". *)
Theorem scan_repository_reshapes (W : World) (repo_name path : string) (h : value)
    (r : response) (contents : value) :
  let get_call := requests_get (contents_url repo_name path) h in
  get_github_headers W = Ok h → truthy h = true →
  requests W [] get_call = Ok r → status_code r = 200%Z → json r = Ok contents →
  (truthy contents = false →
   run (scan_repository W repo_name path)
   = (Ok (dict [("status", VStr "success");
                ("message", VStr "No contents found.");
                ("contents", VList [])]), [Http get_call]))
  ∧ (∀ l items,
       contents = VList l → l ≠ [] →
       Forall2 (λ v s, summary_of item_fields v = Some s) l items →
       run (scan_repository W repo_name path)
       = (Ok (dict [("status", VStr "success");
                    ("message", VStr ("Found " +:+ pretty (length l)
                                      +:+ " items in repository."));
                    ("contents", VList items)]), [Http get_call])
       ∧ Forall (λ s, keys s = list_to_set item_fields.*1) items)
  ∧ (∀ d,
       contents = VDict d → d ≠ ∅ →
       run (scan_repository W repo_name path)
       = (Ok (dict [("status", VStr "success");
                    ("message", VStr "Found 1 items in repository.");
                    ("contents", VList [summary item_fields d])]), [Http get_call])).
Proof.
  intros get_call Hh Ht Hget Hs Hj. apply Z.eqb_eq in Hs.
  split; [| split].
  - intros Hr. unfold scan_repository. exec.
    known Hh; known Ht. fold get_call. by known Hget; known Hs; known Hj; known Hr.
  - intros l items -> Hl Hitems. split; [| by eapply summaries_keys].
    unfold scan_repository. exec.
    known Hh; known Ht. fold get_call. known Hget; known Hs; known Hj.
    assert (Htr : truthy (VList l) = true) by (by destruct l).
    known Htr. rewrite (format_items_summaries l items [] Hitems). simpl.
    by rewrite (Forall2_length _ _ _ Hitems).
  - intros d -> Hd. unfold scan_repository. exec.
    known Hh; known Ht. fold get_call. known Hget; known Hs; known Hj.
    assert (Htr : truthy (VDict d) = true).
    { simpl. apply negb_true_iff, Nat.eqb_neq. by rewrite map_size_non_empty_iff. }
    by known Htr.
Qed.

Lemma scan_repository_reshapes_witness :
  let h := dict [("Accept", VStr "application/vnd.github.v3+json");
                 ("Authorization", VStr "token ghp_token")] in
  run (scan_repository mock_existing "octocat/jarvis" "README.md")
  = (Ok (dict [("status", VStr "success");
               ("message", VStr "Found 1 items in repository.");
               ("contents",
                VList [dict [("name", VStr "README.md"); ("path", VNone);
                             ("type", VNone); ("size", VNone); ("url", VNone)]])]),
     [Http (requests_get
              "https://api.github.com/repos/octocat/jarvis/contents/README.md" h)]).
Proof.
  intros h.
  pose (d := list_to_map [("name", VStr "README.md"); ("sha", VStr "abc123")]
             : gmap string value).
  destruct (scan_repository_reshapes mock_existing "octocat/jarvis" "README.md" h
              {| status_code := 200; text := "{...}"; json := Ok (VDict d) |}
              (VDict d) eq_refl eq_refl eq_refl eq_refl eq_refl) as (_ & _ & H).
  apply (H d); [reflexivity |].
  intros Hd. apply (f_equal (λ x : gmap string value, x !! "name")) in Hd.
  discriminate.
Defined.

(** X17: [create_repository] always asks for an initialised repository
    (auto_init true) with the name, description and visibility given; it
    takes 200 and 201 for success and then reshapes GitHub's answer into a
    dictionary with exactly the keys id, name, full_name, description, url,
    clone_url and private, a field left out being None. *)
Theorem create_repository_creates (W : World) (name description : string) (private : bool)
    (h : value) (r : response) (d : gmap string value) :
  let post_call := requests_post "https://api.github.com/user/repos" h
                     (dict [("name", VStr name);
                            ("description", VStr description);
                            ("private", VBool private);
                            ("auto_init", VBool true)]) in
  get_github_headers W = Ok h → truthy h = true →
  requests W [] post_call = Ok r →
  status_code r = 200%Z ∨ status_code r = 201%Z →
  json r = Ok (VDict d) →
  run (create_repository W name description private)
  = (Ok (dict [("status", VStr "success");
               ("message", VStr ("Repository '" +:+ name +:+ "' created successfully."));
               ("repository", summary created_fields d)]), [Http post_call])
  ∧ keys (summary created_fields d)
    = {["id"; "name"; "full_name"; "description"; "url"; "clone_url"; "private"]}.
Proof.
  intros post_call Hh Ht Hpost Hs Hj. split.
  - unfold create_repository. exec.
    known Hh; known Ht. fold post_call. known Hpost.
    assert (Hok : not_200_201 r = false).
    { unfold not_200_201. destruct Hs as [-> | ->]; reflexivity. }
    known Hok. by known Hj.
  - rewrite keys_summary. simpl. set_solver.
Qed.

Lemma create_repository_creates_witness :
  ∃ post_call,
    run (create_repository mock "demo" "A demo" true)
    = (Ok (dict [("status", VStr "success");
                 ("message", VStr "Repository 'demo' created successfully.");
                 ("repository",
                  dict [("id", VInt 2); ("name", VStr "demo"); ("full_name", VNone);
                        ("description", VNone); ("url", VNone); ("clone_url", VNone);
                        ("private", VNone)])]),
       [Http post_call]).
Proof.
  pose (d := list_to_map [("id", VInt 2); ("name", VStr "demo")] : gmap string value).
  destruct (create_repository_creates mock "demo" "A demo" true
              (dict [("Accept", VStr "application/vnd.github.v3+json");
                     ("Authorization", VStr "token ghp_token")])
              {| status_code := 201; text := "{...}"; json := Ok (VDict d) |} d
              eq_refl eq_refl eq_refl (or_intror eq_refl) eq_refl) as [H _].
  eexists. exact H.
Defined.

(** X18: pushing to a path that is a directory fails before anything is
    written.  When the GET is answered 200 with JSON that is no object
    (GitHub lists a directory as an array), reading the sha raises,
    [push_to_repository] returns an error dictionary, and no PUT is
    issued. *)
Theorem push_to_directory_fails (W : World)
    (repo_name file_path content commit_message : string) (h : value) (r : response)
    (v : value) :
  let get_call := requests_get (push_url repo_name file_path) h in
  get_github_headers W = Ok h → truthy h = true →
  requests W [] get_call = Ok r → status_code r = 200%Z →
  json r = Ok v → (∀ d, v ≠ VDict d) →
  run (push_to_repository W repo_name file_path content commit_message)
  = (Ok (dict [("status", VStr "error");
               ("message", VStr ("Error pushing to repository: '" +:+ type_name v
                                 +:+ "' object has no attribute 'get'"))]),
     [Http get_call]).
Proof.
  intros get_call Hh Ht Hget Hs Hj Hv. apply Z.eqb_eq in Hs.
  unfold push_to_repository, existing_sha. exec.
  known Hh; known Ht. fold get_call. known Hget; known Hs; known Hj.
  destruct v as [| | | | |d]; try reflexivity. by destruct (Hv d).
Qed.

Lemma push_to_directory_fails_witness :
  run (push_to_repository mock_gone "octocat/jarvis" "docs" "hello" "Add greeting")
  = (Ok (dict [("status", VStr "error");
               ("message",
                VStr "Error pushing to repository: 'list' object has no attribute 'get'")]),
     [Http (requests_get "https://api.github.com/repos/octocat/jarvis/contents/docs"
              (dict [("Accept", VStr "application/vnd.github.v3+json");
                     ("Authorization", VStr "token ghp_token")]))]).
Proof.
  apply (push_to_directory_fails mock_gone "octocat/jarvis" "docs" "hello" "Add greeting"
           (dict [("Accept", VStr "application/vnd.github.v3+json");
                  ("Authorization", VStr "token ghp_token")])
           {| status_code := 200; text := "{...}";
              json := Ok (VList [dict [("name", VStr "README.md")]]) |}
           (VList [dict [("name", VStr "README.md")]]));
    try reflexivity.
  discriminate.
Defined.

(** X19: after a PUT answered 200 or 201 with a JSON object,
    [push_to_repository] reports success and the commit's sha and html_url;
    an answer without a "commit", or a commit without one of the two, does
    not fail the call: what is missing is reported as None. *)
Theorem push_to_repository_commits (W : World)
    (repo_name file_path content commit_message : string) (h : value)
    (r : response) (sha : value) (r' : response) (d c : gmap string value) :
  let get_call := requests_get (push_url repo_name file_path) h in
  let put_call := requests_put (push_url repo_name file_path) h
                    (VDict (push_data commit_message content sha)) in
  get_github_headers W = Ok h → truthy h = true →
  requests W [] get_call = Ok r → existing_sha r = Ok sha →
  requests W [Http get_call] put_call = Ok r' →
  status_code r' = 200%Z ∨ status_code r' = 201%Z →
  json r' = Ok (VDict d) →
  default (dict []) (d !! "commit") = VDict c →
  run (push_to_repository W repo_name file_path content commit_message)
  = (Ok (dict [("status", VStr "success");
               ("message", VStr ("File '" +:+ file_path
                                 +:+ "' pushed to repository successfully."));
               ("commit", dict [("sha", default VNone (c !! "sha"));
                                ("url", default VNone (c !! "html_url"))])]),
     [Http get_call; Http put_call]).
Proof.
  intros get_call put_call Hh Ht Hget Hsha Hput Hs Hj Hc.
  unfold push_to_repository. exec.
  known Hh; known Ht. fold get_call. known Hget; known Hsha. fold put_call.
  known Hput.
  assert (Hok : not_200_201 r' = false).
  { unfold not_200_201. destruct Hs as [-> | ->]; reflexivity. }
  known Hok; known Hj. cbn [py_get]. by known Hc.
Qed.

Lemma push_to_repository_commits_witness :
  ∃ t,
    run (push_to_repository mock_existing "octocat/jarvis" "README.md" "hello"
           "Add greeting")
    = (Ok (dict [("status", VStr "success");
                 ("message", VStr "File 'README.md' pushed to repository successfully.");
                 ("commit", dict [("sha", VStr "c0ffee");
                                  ("url", VStr "https://github.com/c")])]), t).
Proof.
  pose (c := list_to_map [("sha", VStr "c0ffee");
                          ("html_url", VStr "https://github.com/c")]
             : gmap string value).
  pose (d := list_to_map [("commit", VDict c)] : gmap string value).
  eexists.
  apply (push_to_repository_commits mock_existing "octocat/jarvis" "README.md" "hello"
           "Add greeting"
           (dict [("Accept", VStr "application/vnd.github.v3+json");
                  ("Authorization", VStr "token ghp_token")])
           {| status_code := 200; text := "{...}";
              json := Ok (dict [("name", VStr "README.md"); ("sha", VStr "abc123")]) |}
           (VStr "abc123")
           {| status_code := 200; text := "{...}"; json := Ok (VDict d) |} d c);
    try reflexivity.
  by left.
Defined.

(** ** Base64 *)

Section Base64.

Local Open Scope N_scope.

Lemma below_forallb (P : N → bool) (k : nat) :
  forallb P (below k) = true → ∀ n, n < N.of_nat k → P n = true.
Proof.
  intros H n Hn. rewrite forallb_forall in H. apply H.
  unfold below. apply list_elem_of_In, list_elem_of_fmap.
  exists (N.to_nat n). split; [by rewrite N2Nat.id |].
  apply list_elem_of_In, in_seq. lia.
Qed.

Lemma bytes_forallb (P : N → N → bool) :
  forallb (λ a, forallb (P a) (below 256)) (below 256) = true →
  ∀ a b, a < 256 → b < 256 → P a b = true.
Proof.
  intros H a b Ha Hb.
  apply (below_forallb (P a) 256); [| done].
  by apply (below_forallb (λ a, forallb (P a) (below 256)) 256).
Qed.

(** A digit decodes to the sextet it encodes, and is not the pad. *)
Lemma sextet_of_sextet alphabet n :
  is_b64_alphabet alphabet → n < 64 →
  sextet_of (sextet alphabet n) = Some n ∧ Ascii.eqb (sextet alphabet n) pad = false.
Proof.
  intros Halpha Hn.
  assert (H : (match sextet_of (sextet alphabet n) with
               | Some m => m =? n
               | None => false
               end && negb (Ascii.eqb (sextet alphabet n) pad))%bool = true).
  { destruct Halpha as [-> | ->];
      apply (below_forallb
               (λ n, (match sextet_of (sextet _ n) with
                      | Some m => m =? n
                      | None => false
                      end && negb (Ascii.eqb (sextet _ n) pad))%bool) 64);
      try done; vm_compute; reflexivity. }
  apply andb_true_iff in H as [H1 H2]. apply negb_true_iff in H2.
  destruct (sextet_of (sextet alphabet n)) as [m|]; [| done].
  apply N.eqb_eq in H1. by subst.
Qed.

(** The sextets of a group, and how the bytes come back from them. *)
Lemma group_bytes a b :
  a < 256 → b < 256 →
  N.shiftr a 2 < 64
  ∧ N.lor (N.shiftl (N.land a 3) 4) (N.shiftr b 4) < 64
  ∧ N.lor (N.shiftl (N.land a 15) 2) (N.shiftr b 6) < 64
  ∧ N.land a 63 < 64
  ∧ N.shiftl (N.land a 3) 4 < 64
  ∧ N.shiftl (N.land a 15) 2 < 64
  ∧ N.lor (N.shiftl (N.shiftr a 2) 2)
          (N.shiftr (N.lor (N.shiftl (N.land a 3) 4) (N.shiftr b 4)) 4) = a
  ∧ N.lor (N.shiftl (N.shiftr a 2) 2) (N.shiftr (N.shiftl (N.land a 3) 4) 4) = a
  ∧ N.land (N.lor (N.shiftl (N.land a 3) 4) (N.shiftr b 4)) 15 = N.shiftr b 4
  ∧ N.shiftr (N.lor (N.shiftl (N.land a 15) 2) (N.shiftr b 6)) 2 = N.land a 15
  ∧ N.shiftr (N.shiftl (N.land a 15) 2) 2 = N.land a 15
  ∧ N.lor (N.shiftl (N.shiftr a 4) 4) (N.land a 15) = a
  ∧ N.land (N.lor (N.shiftl (N.land a 15) 2) (N.shiftr b 6)) 3 = N.shiftr b 6
  ∧ N.lor (N.shiftl (N.shiftr a 6) 6) (N.land a 63) = a.
Proof.
  intros Ha Hb.
  pose (P := λ a b : N,
    ((N.shiftr a 2 <? 64)
     && (N.lor (N.shiftl (N.land a 3) 4) (N.shiftr b 4) <? 64)
     && (N.lor (N.shiftl (N.land a 15) 2) (N.shiftr b 6) <? 64)
     && (N.land a 63 <? 64)
     && (N.shiftl (N.land a 3) 4 <? 64)
     && (N.shiftl (N.land a 15) 2 <? 64)
     && (N.lor (N.shiftl (N.shiftr a 2) 2)
               (N.shiftr (N.lor (N.shiftl (N.land a 3) 4) (N.shiftr b 4)) 4) =? a)
     && (N.lor (N.shiftl (N.shiftr a 2) 2) (N.shiftr (N.shiftl (N.land a 3) 4) 4) =? a)
     && (N.land (N.lor (N.shiftl (N.land a 3) 4) (N.shiftr b 4)) 15 =? N.shiftr b 4)
     && (N.shiftr (N.lor (N.shiftl (N.land a 15) 2) (N.shiftr b 6)) 2 =? N.land a 15)
     && (N.shiftr (N.shiftl (N.land a 15) 2) 2 =? N.land a 15)
     && (N.lor (N.shiftl (N.shiftr a 4) 4) (N.land a 15) =? a)
     && (N.land (N.lor (N.shiftl (N.land a 15) 2) (N.shiftr b 6)) 3 =? N.shiftr b 6)
     && (N.lor (N.shiftl (N.shiftr a 6) 6) (N.land a 63) =? a))%bool).
  assert (H : P a b = true).
  { apply bytes_forallb; [| done | done]. vm_compute. reflexivity. }
  subst P. simpl in H.
  repeat (apply andb_true_iff in H as [H ?]).
  repeat match goal with
         | H : (_ <? _) = true |- _ => apply N.ltb_lt in H
         | H : (_ =? _) = true |- _ => apply N.eqb_eq in H
         end.
  repeat split; assumption.
Qed.

Lemma decode_encode_bytes (alphabet : string) (l : list N) :
  is_b64_alphabet alphabet → Forall (λ b, b < 256) l →
  decode_quads (String.list_ascii_of_string (encode_bytes alphabet l)) = Some l.
Proof.
  intros Halpha.
  assert (Hstep : ∀ n l, (length l ≤ n)%nat → Forall (λ b, b < 256) l →
            decode_quads (String.list_ascii_of_string (encode_bytes alphabet l)) = Some l).
  { clear l. induction n as [n IH] using (well_founded_induction lt_wf).
    intros [|a [|b [|c rest]]] Hlen Hl.
    - reflexivity.
    - apply Forall_cons in Hl as [Ha _].
      destruct (group_bytes a a Ha Ha) as (X & _ & _ & _ & Y & _ & _ & R & _).
      cbn [encode_bytes String.list_ascii_of_string decode_quads].
      destruct (sextet_of_sextet alphabet _ Halpha X) as [-> _].
      destruct (sextet_of_sextet alphabet _ Halpha Y) as [-> _].
      rewrite Ascii.eqb_refl. by rewrite R.
    - apply Forall_cons in Hl as [Ha Hl]. apply Forall_cons in Hl as [Hb _].
      destruct (group_bytes a b Ha Hb) as (X & Y & _ & _ & _ & _ & R0 & _ & E1 & _).
      destruct (group_bytes b b Hb Hb)
        as (_ & _ & _ & _ & _ & Z & _ & _ & _ & _ & E2 & E3 & _).
      cbn [encode_bytes String.list_ascii_of_string decode_quads].
      destruct (sextet_of_sextet alphabet _ Halpha X) as [-> _].
      destruct (sextet_of_sextet alphabet _ Halpha Y) as [-> _].
      destruct (sextet_of_sextet alphabet _ Halpha Z) as [-> ->].
      rewrite Ascii.eqb_refl. by rewrite R0, E1, E2, E3.
    - apply Forall_cons in Hl as [Ha Hl]. apply Forall_cons in Hl as [Hb Hl].
      apply Forall_cons in Hl as [Hc Hl].
      destruct (group_bytes a b Ha Hb) as (X & Y & _ & _ & _ & _ & R0 & _ & E1 & _).
      destruct (group_bytes b c Hb Hc)
        as (_ & _ & Z & _ & _ & _ & _ & _ & _ & E2 & _ & E3 & E4 & _).
      destruct (group_bytes c c Hc Hc)
        as (_ & _ & _ & V & _ & _ & _ & _ & _ & _ & _ & _ & _ & E5).
      cbn [encode_bytes String.list_ascii_of_string decode_quads].
      destruct (sextet_of_sextet alphabet _ Halpha X) as [-> _].
      destruct (sextet_of_sextet alphabet _ Halpha Y) as [-> _].
      destruct (sextet_of_sextet alphabet _ Halpha Z) as [-> ->].
      destruct (sextet_of_sextet alphabet _ Halpha V) as [-> ->].
      rewrite R0, E1, E2, E3, E4, E5.
      simpl in Hlen. rewrite (IH (length rest)); [done | lia | done | done]. }
  intros Hl. by apply (Hstep (length l)).
Qed.

End Base64.

Lemma bytes_of_bounded (s : string) : Forall (λ b, (b < 256)%N) (bytes_of s).
Proof.
  unfold bytes_of. apply Forall_fmap, Forall_forall. intros c _. apply N_ascii_bounded.
Qed.

Lemma bytes_of_inj (s s' : string) : bytes_of s = bytes_of s' → s = s'.
Proof.
  unfold bytes_of. intros H.
  apply (f_equal (fmap ascii_of_N)) in H.
  rewrite <- !list_fmap_compose in H.
  rewrite !(list_fmap_ext (ascii_of_N ∘ N_of_ascii) id) in H
    by (intros ? ? ?; apply ascii_N_embedding).
  rewrite !list_fmap_id in H.
  apply (f_equal String.string_of_list_ascii) in H.
  by rewrite !String.string_of_list_ascii_of_string in H.
Qed.

Lemma b64encode_decodes (s : string) :
  decode_quads (String.list_ascii_of_string (b64encode s)) = Some (bytes_of s).
Proof. apply decode_encode_bytes; [by left | apply bytes_of_bounded]. Qed.

Lemma urlsafe_b64encode_decodes (s : string) :
  decode_quads (String.list_ascii_of_string (urlsafe_b64encode s)) = Some (bytes_of s).
Proof. apply decode_encode_bytes; [by right | apply bytes_of_bounded]. Qed.

(** X20: the base64 text the tools produce loses nothing: decoding the
    text of [b64encode] or of [urlsafe_b64encode] gives back the bytes
    encoded.  So two contents with the same encoding are equal, and two
    pushes whose PUT bodies are equal carry the same commit message and
    the same content. *)
Theorem base64_round_trip (s : string) :
  decode_quads (String.list_ascii_of_string (b64encode s)) = Some (bytes_of s)
  ∧ decode_quads (String.list_ascii_of_string (urlsafe_b64encode s)) = Some (bytes_of s)
  ∧ (∀ s', b64encode s = b64encode s' → s = s')
  ∧ (∀ commit_message sha commit_message' s' sha',
       push_data commit_message s sha = push_data commit_message' s' sha' →
       commit_message = commit_message' ∧ s = s').
Proof.
  assert (Hinj : ∀ s s', b64encode s = b64encode s' → s = s').
  { intros s0 s' H. apply bytes_of_inj.
    pose proof (b64encode_decodes s0) as H0. rewrite H, b64encode_decodes in H0.
    by injection H0. }
  split; [apply b64encode_decodes |].
  split; [apply urlsafe_b64encode_decodes |]. split; [apply Hinj |].
  - intros commit_message sha commit_message' s' sha' H.
    pose proof (push_data_message commit_message s sha) as Hm.
    pose proof (push_data_content commit_message s sha) as Hc.
    rewrite H, push_data_message in Hm. rewrite H, push_data_content in Hc.
    injection Hm as ->. injection Hc as Hc. split; [done | by apply Hinj].
Qed.

Lemma base64_round_trip_witness :
  decode_quads (String.list_ascii_of_string "aGVsbG8=") = Some (bytes_of "hello").
Proof. destruct (base64_round_trip "hello") as [H _]. exact H. Defined.

(** ** create_message *)

Lemma get_beyond (s : string) (k : nat) :
  String.length s ≤ k → String.get k s = None.
Proof.
  revert k. induction s as [|c s IH]; intros k Hk; [by destruct k |].
  destruct k as [|k]; simpl in *; [lia |]. apply IH. lia.
Qed.

Lemma sextet_urlsafe (n : N) :
  sextet urlsafe_alphabet n ≠ "+"%char ∧ sextet urlsafe_alphabet n ≠ "/"%char.
Proof.
  destruct (decide (n < 64)%N) as [Hn | Hn].
  - assert (H : (negb (Ascii.eqb (sextet urlsafe_alphabet n) "+")
                 && negb (Ascii.eqb (sextet urlsafe_alphabet n) "/"))%bool = true).
    { apply (below_forallb
               (λ n, (negb (Ascii.eqb (sextet urlsafe_alphabet n) "+")
                      && negb (Ascii.eqb (sextet urlsafe_alphabet n) "/"))%bool) 64);
        [vm_compute; reflexivity | done]. }
    apply andb_true_iff in H as [H1 H2].
    apply negb_true_iff, Ascii.eqb_neq in H1, H2. done.
  - unfold sextet. rewrite get_beyond; [done |]. simpl. lia.
Qed.

(** Where the encoder puts a character, it is a digit of the alphabet or
    the pad. *)
Lemma urlsafe_characters (l : list N) :
  Forall (λ c, c ≠ "+"%char ∧ c ≠ "/"%char)
         (String.list_ascii_of_string (encode_bytes urlsafe_alphabet l)).
Proof.
  assert (Hpad : pad ≠ "+"%char ∧ pad ≠ "/"%char) by done.
  assert (Hstep : ∀ n l, length l ≤ n →
            Forall (λ c, c ≠ "+"%char ∧ c ≠ "/"%char)
                   (String.list_ascii_of_string (encode_bytes urlsafe_alphabet l))).
  { clear l. induction n as [n IH] using (well_founded_induction lt_wf).
    intros [|a [|b [|c rest]]] Hlen;
      cbn [encode_bytes String.list_ascii_of_string];
      repeat (apply Forall_cons; split; [first [exact Hpad | apply sextet_urlsafe] |]);
      try apply Forall_nil_2.
    simpl in Hlen. apply (IH (length rest)); lia. }
  by apply (Hstep (length l)).
Qed.

(** X21: the "raw" of the message [create_message] builds is the MIME
    bytes in URL-safe base64: it contains neither "+" nor "/", and it
    decodes back to those bytes. *)
Theorem create_message_raw (W : World) (sender : value) (to subject message_text : string)
    (is_html : bool) (d : value) :
  create_message W sender to subject message_text is_html = Ok d →
  ∃ bytes raw,
    mime_as_bytes W sender to subject message_text is_html = inl bytes
    ∧ d = dict [("raw", VStr raw)]
    ∧ Forall (λ c, c ≠ "+"%char ∧ c ≠ "/"%char) (String.list_ascii_of_string raw)
    ∧ decode_quads (String.list_ascii_of_string raw) = Some (bytes_of bytes).
Proof.
  unfold create_message.
  destruct (mime_as_bytes W sender to subject message_text is_html) as [bytes|e];
    simpl; [| discriminate].
  intros [= <-]. exists bytes, (urlsafe_b64encode bytes).
  split; [done |]. split; [done |]. split; [apply urlsafe_characters |].
  apply urlsafe_b64encode_decodes.
Qed.

Lemma create_message_raw_witness :
  ∃ raw, create_message mock (VStr "me@example.com") "bob@example.com" "Hi" "hello" false
         = Ok (dict [("raw", VStr raw)])
         ∧ Forall (λ c, c ≠ "+"%char ∧ c ≠ "/"%char) (String.list_ascii_of_string raw).
Proof.
  destruct (create_message_raw mock (VStr "me@example.com") "bob@example.com" "Hi"
              "hello" false _ eq_refl) as (bytes & raw & _ & Hd & Hraw & _).
  exists raw. split; [| exact Hraw].
  unfold create_message. simpl. by rewrite <- Hd.
Defined.

(** ** Importing the package *)

Lemma run_imports_missing (ms : modules) (stmts : list import_from) (ns : gset string)
    (st : import_from) :
  st ∈ stmts → ms !! module st = None → ∃ e, run_imports ms stmts ns = Raise e.
Proof.
  intros Hin Hm. revert ns.
  induction stmts as [|st' rest IH]; intros ns; [by apply elem_of_nil in Hin |].
  simpl. apply elem_of_cons in Hin as [<- | Hin].
  - rewrite Hm. eauto.
  - destruct (ms !! module st') as [defs|]; [| eauto].
    destruct (forallb _ _); [by apply IH | eauto].
Qed.

(** X22: importing the package is all or nothing: when any one of the ten
    modules [__init__.py] imports from is missing, a calendar module
    included, the import raises and none of the tools is bound, the email
    and GitHub tools no more than the others. *)
Theorem import_all_or_nothing (ms : modules) (k : string) :
  k ∈ module <$> imports → ms !! k = None → ∃ e, import_package ms = Raise e.
Proof.
  intros Hk Hm. apply list_elem_of_fmap in Hk as (st & -> & Hst).
  unfold import_package. eapply run_imports_missing; eassumption.
Qed.

Lemma import_all_or_nothing_witness :
  ∃ e, import_package tool_modules = Raise e.
Proof.
  apply (import_all_or_nothing tool_modules "calendar_utils").
  - apply list_elem_of_here.
  - reflexivity.
Defined.
